(** * nova.scheduler.driver: the scheduler base class

    A shallow embedding of [src/nova/scheduler/driver.py] and the
    properties of its liveness test, host listing, live-migration
    pre-checks, capacity check and commit.

    The module talks to three collaborators that live outside the file:
    the registry ([nova.db]), the message bus ([nova.rpc]) and the wall
    clock ([datetime.datetime.utcnow]).  They are taken as an interface
    ([Env]); every call to one of them is recorded in a trace, so that
    "this read happened", "no write was issued" are statements about a
    run.  Exceptions keep the state reached so far, as in Python. *)

From Stdlib Require Import ZArith List String Ascii Bool Lia DecimalString
  Permutation.
Import ListNotations.

Local Open Scope string_scope.
Local Open Scope list_scope.
Local Open Scope Z_scope.

(** ** Python values used by the module *)

(** An exception is its class and its [args]. *)
Record exn := Exn { exn_class : string; exn_args : list string }.

Definition Invalid (msg : string) : exn := Exn "Invalid" [msg].
Definition NotFound (msg : string) : exn := Exn "NotFound" [msg].
Definition NotEmpty (msg : string) : exn := Exn "NotEmpty" [msg].
Definition RemoteError (exc_type value traceback : string) : exn :=
  Exn "RemoteError" [exc_type; value; traceback].
Definition NotImplementedError (msg : string) : exn :=
  Exn "NotImplementedError" [msg].
Definition NameError (msg : string) : exn := Exn "NameError" [msg].
Definition IndexError (msg : string) : exn := Exn "IndexError" [msg].

(** The dynamically typed column [hosts.cpu_info]: the code tests
    [str != type(cpuinfo)]. *)
Inductive pyval :=
| PyNone
| PyStr (s : string)
| PyUnicode (s : string)
| PyInt (z : Z).

(** [str(n)] for an integer. *)
Definition str_of_Z (z : Z) : string := NilZero.string_of_int (Z.to_int z).

(** [template % args] for templates that only use [%s]; each argument is
    already a string.  A [%s] with no argument left stays as it is. *)
Fixpoint py_format (template : string) (args : list string) : string :=
  match template with
  | EmptyString => EmptyString
  | String c rest =>
      if Ascii.eqb c "%"%char then
        match rest with
        | String c2 rest2 =>
            if Ascii.eqb c2 "s"%char then
              match args with
              | a :: args' => String.append a (py_format rest2 args')
              | [] => String c (String c2 (py_format rest2 []))
              end
            else String c (String c2 (py_format rest2 args))
        | EmptyString => String c EmptyString
        end
      else String c (py_format rest args)
  end.

(** Modelled from the spec: [nova.compute.power_state], which is not part
    of the sources at hand; section 3 of the specification describes the
    instance state as an enumeration (RUNNING, PAUSED, ..., "shutoff"). *)
Inductive power_state :=
| NOSTATE | RUNNING | BLOCKED | PAUSED | SHUTDOWN | SHUTOFF | CRASHED.

Definition power_state_eqb (a b : power_state) : bool :=
  match a, b with
  | NOSTATE, NOSTATE | RUNNING, RUNNING | BLOCKED, BLOCKED
  | PAUSED, PAUSED | SHUTDOWN, SHUTDOWN | SHUTOFF, SHUTOFF
  | CRASHED, CRASHED => true
  | _, _ => false
  end.

(** ** Registry records

    Timestamps are [datetime] values, counted in microseconds; a
    [timedelta] is a number of microseconds. *)

Record service := {
  service_host : string;
  service_topic : string;
  updated_at : option Z;      (* None until the first heartbeat *)
  created_at : Z
}.

Record host := {
  h_name : string;
  h_vcpus : Z;
  h_memory_mb : Z;
  h_local_gb : Z;
  hypervisor_type : string;
  hypervisor_version : Z;
  cpu_info : pyval
}.

Record instance := {
  i_id : Z;
  i_hostname : string;
  i_host : string;
  i_vcpus : Z;
  i_memory_mb : Z;
  i_local_gb : Z;
  i_state : power_state;
  i_state_description : string;
  i_launched_on : string
}.

Record volume := {
  vol_id : Z;
  vol_instance_id : Z;
  vol_status : string
}.

(** The message handed to [rpc.call]:
    [{"method": ..., "args": {...}}]. *)
Record rpc_msg := { rpc_method : string; rpc_args : list (string * string) }.

(** [FLAGS]: [service_down_time] is defined by the module (default 60),
    [compute_topic] elsewhere in nova. *)
Record flags := { service_down_time : Z; compute_topic : string }.

Definition timedelta_seconds (s : Z) : Z := s * 1000000.

(** ** Calls to the collaborators, as they appear in a trace *)

Inductive event :=
| EvServiceGetAllByTopic (topic : string)
| EvInstanceGet (instance_id : Z)
| EvHostGetByName (name : string)
| EvInstanceGetAllByHost (name : string)
| EvVolumeGetAllByInstance (instance_id : Z)
| EvInstanceSetState (instance_id : Z) (st : power_state) (description : string)
| EvVolumeUpdate (volume_id : Z) (values : list (string * string))
| EvRpcCall (queue : string) (msg : rpc_msg)
| EvUtcnow
| EvLog (level : string) (msg : string).

(** The two requests that change the registry. *)
Definition is_mutation (e : event) : bool :=
  match e with
  | EvInstanceSetState _ _ _ | EvVolumeUpdate _ _ => true
  | _ => false
  end.

(** ** The collaborators

    [DB] is the registry's state.  Reads return a value or raise, writes
    return the new state or raise; [clock n] is what the [n]-th call of
    [utcnow()] in a run returns. *)
Record Env (DB : Type) := {
  FLAGS : flags;
  service_get_all_by_topic : DB -> string -> exn + list service;
  instance_get : DB -> Z -> exn + instance;
  host_get_by_name : DB -> string -> exn + host;
  instance_get_all_by_host : DB -> string -> exn + list instance;
  volume_get_all_by_instance : DB -> Z -> exn + list volume;
  instance_set_state : DB -> Z -> power_state -> string -> exn + DB;
  volume_update : DB -> Z -> list (string * string) -> exn + DB;
  queue_get_for : string -> string -> string;
  rpc_call : string -> rpc_msg -> exn + string;
  clock : nat -> Z
}.

Arguments FLAGS {DB}.
Arguments service_get_all_by_topic {DB}.
Arguments instance_get {DB}.
Arguments host_get_by_name {DB}.
Arguments instance_get_all_by_host {DB}.
Arguments volume_get_all_by_instance {DB}.
Arguments instance_set_state {DB}.
Arguments volume_update {DB}.
Arguments queue_get_for {DB}.
Arguments rpc_call {DB}.
Arguments clock {DB}.

(** ** The state of a run and the monad of the module's methods *)

Record World (DB : Type) := {
  w_db : DB;                  (* the registry *)
  w_ticks : nat;              (* how many times the clock was read *)
  w_trace : list event        (* the calls made so far, oldest first *)
}.

Arguments w_db {DB}.
Arguments w_ticks {DB}.
Arguments w_trace {DB}.

Definition M (DB A : Type) : Type := World DB -> (exn + A) * World DB.

Definition ret {DB A} (a : A) : M DB A := fun w => (inr a, w).

Definition bind {DB A B} (m : M DB A) (k : A -> M DB B) : M DB B :=
  fun w =>
    match m w with
    | (inr a, w') => k a w'
    | (inl e, w') => (inl e, w')
    end.

Definition raise {DB A} (e : exn) : M DB A := fun w => (inl e, w).

(** [try: body  except cls, e: handler e]: only exceptions of class
    [cls] are caught; the state reached by [body] is kept. *)
Definition try_except {DB A} (body : M DB A) (cls : string)
    (handler : exn -> M DB A) : M DB A :=
  fun w =>
    match body w with
    | (inl e, w') =>
        if String.eqb (exn_class e) cls then handler e w' else (inl e, w')
    | r => r
    end.

(** [if c: raise e]. *)
Definition raise_if {DB} (c : bool) (e : exn) : M DB unit :=
  if c then raise e else ret tt.

(** [for x in l: body x]. *)
Fixpoint for_each {DB A} (l : list A) (body : A -> M DB unit) : M DB unit :=
  match l with
  | [] => ret tt
  | x :: l' => bind (body x) (fun _ => for_each l' body)
  end.

Declare Scope py_scope.
Delimit Scope py_scope with py.
Notation "x <- m ;; k" := (bind m (fun x => k))
  (at level 61, m at next level, right associativity) : py_scope.
Notation "m ;; k" := (bind m (fun _ => k))
  (at level 61, right associativity) : py_scope.

Definition log_event {DB} (ev : event) (w : World DB) : World DB :=
  {| w_db := w_db w; w_ticks := w_ticks w; w_trace := w_trace w ++ [ev] |}.

Definition set_db {DB} (d : DB) (w : World DB) : World DB :=
  {| w_db := d; w_ticks := w_ticks w; w_trace := w_trace w |}.

Definition tick {DB} (w : World DB) : World DB :=
  {| w_db := w_db w; w_ticks := S (w_ticks w); w_trace := w_trace w |}.

(** A read of the registry. *)
Definition db_read {DB A} (ev : event) (f : DB -> exn + A) : M DB A :=
  fun w => (f (w_db w), log_event ev w).

(** A write to the registry; a write that raises leaves it as it was. *)
Definition db_write {DB} (ev : event) (f : DB -> exn + DB) : M DB unit :=
  fun w =>
    match f (w_db w) with
    | inr d => (inr tt, set_db d (log_event ev w))
    | inl e => (inl e, log_event ev w)
    end.

(** A name that is never bound in the function nor in the module:
    evaluating it raises [NameError]. *)
Definition unbound_name {DB} (name : string) : M DB string :=
  raise (NameError (py_format "global name '%s' is not defined" [name])).

(** [l[0]]. *)
Definition index0 {DB A} (l : list A) : M DB A :=
  match l with
  | x :: _ => ret x
  | [] => raise (IndexError "list index out of range")
  end.

Definition newline : string := String (ascii_of_nat 10) EmptyString.

(** ** The methods of [Scheduler] *)

Section Driver.

Context {DB : Type} (env : Env DB).

Local Open Scope py_scope.

(** [_( )] is gettext's translation hook; messages are kept as written. *)
Definition gettext (msg : string) : string := msg.

Definition utcnow : M DB Z :=
  fun w => (inr (clock env (w_ticks w)), tick (log_event EvUtcnow w)).

Definition logging_debug (msg : string) : M DB unit :=
  fun w => (inr tt, log_event (EvLog "debug" msg) w).

Definition logging_error (msg : string) : M DB unit :=
  fun w => (inr tt, log_event (EvLog "error" msg) w).

Definition db_service_get_all_by_topic (topic : string) : M DB (list service) :=
  db_read (EvServiceGetAllByTopic topic)
          (fun d => service_get_all_by_topic env d topic).

Definition db_instance_get (instance_id : Z) : M DB instance :=
  db_read (EvInstanceGet instance_id) (fun d => instance_get env d instance_id).

Definition db_host_get_by_name (name : string) : M DB host :=
  db_read (EvHostGetByName name) (fun d => host_get_by_name env d name).

Definition db_instance_get_all_by_host (name : string) : M DB (list instance) :=
  db_read (EvInstanceGetAllByHost name)
          (fun d => instance_get_all_by_host env d name).

Definition db_volume_get_all_by_instance (instance_id : Z) : M DB (list volume) :=
  db_read (EvVolumeGetAllByInstance instance_id)
          (fun d => volume_get_all_by_instance env d instance_id).

Definition db_instance_set_state (instance_id : Z) (st : power_state)
    (description : string) : M DB unit :=
  db_write (EvInstanceSetState instance_id st description)
           (fun d => instance_set_state env d instance_id st description).

Definition db_volume_update (volume_id : Z) (values : list (string * string))
    : M DB unit :=
  db_write (EvVolumeUpdate volume_id values)
           (fun d => volume_update env d volume_id values).

Definition rpc_dot_call (queue : string) (msg : rpc_msg) : M DB string :=
  fun w => (rpc_call env queue msg, log_event (EvRpcCall queue msg) w).

(** [service['updated_at'] or service['created_at']]: a [datetime] is
    always true, so [or] falls through only on [None]. *)
Definition last_heartbeat_of (s : service) : Z :=
  match updated_at s with
  | Some t => t
  | None => created_at s
  end.

(** [Scheduler.service_is_up] (lines 51-57). *)
Definition service_is_up (s : service) : M DB bool :=
  let last_heartbeat := last_heartbeat_of s in
  now <- utcnow ;;
  let elapsed := now - last_heartbeat in
  ret (elapsed <? timedelta_seconds (service_down_time (FLAGS env))).

(** [[f x for x in l if cond x]], with a condition that has effects. *)
Fixpoint list_comprehension {A B} (l : list A) (cond : A -> M DB bool)
    (f : A -> B) : M DB (list B) :=
  match l with
  | [] => ret []
  | x :: l' =>
      c <- cond x ;;
      rest <- list_comprehension l' cond f ;;
      ret (if c then f x :: rest else rest)
  end.

(** [Scheduler.hosts_up] (lines 59-65). *)
Definition hosts_up (topic : string) : M DB (list string) :=
  services <- db_service_get_all_by_topic topic ;;
  list_comprehension services service_is_up service_host.

(** [Scheduler.schedule] (lines 67-69). *)
Definition schedule (topic : string) : M DB string :=
  raise (NotImplementedError (gettext "Must implement a fallback schedule")).

(** [Scheduler.has_enough_resource] (lines 167-199).  [int( )] is applied
    to integer columns and is the identity there. *)
Definition has_enough_resource (instance_id : Z) (dest : string) : M DB unit :=
  (* Getting instance information *)
  instance_ref <- db_instance_get instance_id ;;
  let ec2_id := i_hostname instance_ref in
  let vcpus := i_vcpus instance_ref in
  let mem := i_memory_mb instance_ref in
  let hdd := i_local_gb instance_ref in
  (* Gettin host information *)
  host_ref <- db_host_get_by_name dest ;;
  let total_cpu := h_vcpus host_ref in
  let total_mem := h_memory_mb host_ref in
  let total_hdd := h_local_gb host_ref in
  instances_ref <- db_instance_get_all_by_host dest ;;
  let '(total_cpu, total_mem, total_hdd) :=
    fold_left
      (fun '(total_cpu, total_mem, total_hdd) i_ref =>
         (total_cpu - i_vcpus i_ref,
          total_mem - i_memory_mb i_ref,
          total_hdd - i_local_gb i_ref))
      instances_ref (total_cpu, total_mem, total_hdd) in
  (* Checking host has enough information *)
  logging_debug
    (py_format "host(%s) remains vcpu:%s mem:%s hdd:%s,"
       [dest; str_of_Z total_cpu; str_of_Z total_mem; str_of_Z total_hdd]) ;;
  logging_debug
    (py_format "instance(%s) has vcpu:%s mem:%s hdd:%s,"
       [ec2_id; str_of_Z vcpus; str_of_Z mem; str_of_Z hdd]) ;;
  raise_if ((total_cpu <=? vcpus) || (total_mem <=? mem) || (total_hdd <=? hdd))
    (NotEmpty (py_format "%s doesnt have enough resource for %s" [dest; ec2_id])) ;;
  logging_debug
    (py_format (gettext "%s has enough resource for %s") [dest; ec2_id]).

(** [Scheduler.schedule_live_migration] (lines 71-165). *)
Definition schedule_live_migration (instance_id : Z) (dest : string)
    : M DB string :=
  (* Whether instance exists and running *)
  instance_ref <- db_instance_get instance_id ;;
  let ec2_id := i_hostname instance_ref in
  (* Checking instance state. *)
  raise_if (negb (power_state_eqb RUNNING (i_state instance_ref)) ||
            negb (String.eqb "running" (i_state_description instance_ref)))
    (Invalid (py_format (gettext "Instance(%s) is not running") [ec2_id])) ;;
  (* Checking destination host exists *)
  dhost_ref <- db_host_get_by_name dest ;;
  (* Checking whether The host where instance is running
     and dest is not same. *)
  let src := i_host instance_ref in
  raise_if (String.eqb dest src)
    (Invalid (py_format
                (gettext "%s is where %s is running now. choose other host.")
                [dest; ec2_id])) ;;
  (* Checking dest is compute node. *)
  services <- db_service_get_all_by_topic "compute" ;;
  raise_if (negb (existsb (String.eqb dest) (map service_host services)))
    (Invalid (py_format (gettext "%s must be compute node") [dest])) ;;
  (* Checking dest host is alive. *)
  svc <- index0 (filter (fun s => String.eqb (service_host s) dest) services) ;;
  up <- service_is_up svc ;;
  raise_if (negb up)
    (Invalid (py_format (gettext "%s is not alive(time synchronize problem?)")
                [dest])) ;;
  (* Checking hypervisor is same. *)
  let orighost := i_launched_on instance_ref in
  ohost_ref <- db_host_get_by_name orighost ;;
  let otype := hypervisor_type ohost_ref in
  let dtype := hypervisor_type dhost_ref in
  raise_if (negb (String.eqb otype dtype))
    (Invalid (py_format (gettext "Different hypervisor type(%s->%s)")
                [otype; dtype])) ;;
  (* Checkng hypervisor version. *)
  let oversion := hypervisor_version ohost_ref in
  let dversion := hypervisor_version dhost_ref in
  raise_if (oversion >? dversion)
    (Invalid (py_format (gettext "Older hypervisor version(%s->%s)")
                [str_of_Z oversion; str_of_Z dversion])) ;;
  (* Checking cpuinfo. *)
  let cpuinfo := cpu_info ohost_ref in
  xml <- match cpuinfo with
         | PyStr xml => ret xml
         | _ =>
             raise (Invalid
                      (py_format
                         (gettext "Unexpected err: not found cpu_info for %s on DB.hosts")
                         [orighost]))
         end ;;
  try_except
    (rpc_dot_call (queue_get_for env (compute_topic (FLAGS env)) dest)
       {| rpc_method := "compare_cpu"; rpc_args := [("xml", xml)] |} ;;
     ret tt)
    "RemoteError"
    (fun e =>
       let msg := String.append
                    "%s doesnt have compatibility to %s(where %s launching at)"
                    newline in
       let msg := String.append msg (String.append "result:%s " newline) in
       (* [ret] is not bound anywhere: building the argument tuple raises *)
       result <- unbound_name "ret" ;;
       logging_error (py_format (gettext msg) [dest; src; ec2_id; result]) ;;
       raise e) ;;
  (* Checking dst host still has enough capacities. *)
  has_enough_resource instance_id dest ;;
  (* Changing instance_state. *)
  db_instance_set_state instance_id PAUSED "migrating" ;;
  (* Changing volume state *)
  try_except
    (vols <- db_volume_get_all_by_instance instance_id ;;
     for_each vols
       (fun vol => db_volume_update (vol_id vol) [("status", "migrating")]))
    "NotFound"
    (fun _ => ret tt) ;;
  (* Return value is necessary to send request to src *)
  ret src.

End Driver.

(** ** A reference registry

    Witnesses and counterexamples need a registry that runs.  *)

Module MemDb.

(** Modelled from the spec: the registry behind [nova.db], which is not
    part of the sources at hand.  Section 6 of the specification gives
    its interface: [listByTopic], [getByName] (fails when the host is
    absent), [get] and [listByHost], [setState], [listByInstance] and
    [update] (fails when the volume is absent).  [detached] lists the
    volumes another actor detaches after their listing was read: their
    update reports not-found, the case section 4.7 describes. *)
Record store := {
  services : list service;
  hosts : list host;
  instances : list instance;
  volumes : list volume;
  detached : list Z
}.

Definition get_services (st : store) (topic : string) : exn + list service :=
  inr (filter (fun s => String.eqb (service_topic s) topic) (services st)).

Definition get_instance (st : store) (id : Z) : exn + instance :=
  match find (fun i => Z.eqb (i_id i) id) (instances st) with
  | Some i => inr i
  | None => inl (NotFound (py_format "Instance %s not found" [str_of_Z id]))
  end.

Definition get_host (st : store) (name : string) : exn + host :=
  match find (fun h => String.eqb (h_name h) name) (hosts st) with
  | Some h => inr h
  | None => inl (NotFound (py_format "Host %s not found" [name]))
  end.

Definition get_instances_by_host (st : store) (name : string)
    : exn + list instance :=
  inr (filter (fun i => String.eqb (i_host i) name) (instances st)).

Definition get_volumes (st : store) (id : Z) : exn + list volume :=
  inr (filter (fun v => Z.eqb (vol_instance_id v) id) (volumes st)).

Definition with_state (st : power_state) (description : string) (i : instance)
    : instance :=
  {| i_id := i_id i; i_hostname := i_hostname i; i_host := i_host i;
     i_vcpus := i_vcpus i; i_memory_mb := i_memory_mb i;
     i_local_gb := i_local_gb i; i_state := st;
     i_state_description := description; i_launched_on := i_launched_on i |}.

Definition set_state (st : store) (id : Z) (ps : power_state)
    (description : string) : exn + store :=
  match find (fun i => Z.eqb (i_id i) id) (instances st) with
  | None => inl (NotFound (py_format "Instance %s not found" [str_of_Z id]))
  | Some _ =>
      inr {| services := services st; hosts := hosts st;
             instances :=
               map (fun i => if Z.eqb (i_id i) id
                             then with_state ps description i else i)
                   (instances st);
             volumes := volumes st; detached := detached st |}
  end.

(** The fields of a volume that [values] sets; only [status] exists. *)
Definition with_values (values : list (string * string)) (v : volume) : volume :=
  match find (fun kv => String.eqb (fst kv) "status") values with
  | Some kv =>
      {| vol_id := vol_id v; vol_instance_id := vol_instance_id v;
         vol_status := snd kv |}
  | None => v
  end.

Definition update_volume (st : store) (id : Z) (values : list (string * string))
    : exn + store :=
  if existsb (Z.eqb id) (detached st) then
    inl (NotFound (py_format "Volume %s not found" [str_of_Z id]))
  else
    match find (fun v => Z.eqb (vol_id v) id) (volumes st) with
    | None => inl (NotFound (py_format "Volume %s not found" [str_of_Z id]))
    | Some _ =>
        inr {| services := services st; hosts := hosts st;
               instances := instances st;
               volumes :=
                 map (fun v => if Z.eqb (vol_id v) id
                               then with_values values v else v)
                     (volumes st);
               detached := detached st |}
    end.

(** The status of volume [id], the state of instance [id]. *)
Definition status_of (st : store) (id : Z) : option string :=
  option_map vol_status (find (fun v => Z.eqb (vol_id v) id) (volumes st)).

Definition state_of (st : store) (id : Z) : option (power_state * string) :=
  option_map (fun i => (i_state i, i_state_description i))
             (find (fun i => Z.eqb (i_id i) id) (instances st)).

(** The bus address of a topic on a host. *)
Definition queue_for (topic hostname : string) : string :=
  py_format "%s.%s" [topic; hostname].

(** The registry as a collaborator, with a given answer of the bus and a
    given clock. *)
Definition mem_env (fl : flags) (rpc : string -> rpc_msg -> exn + string)
    (clk : nat -> Z) : Env store :=
  {| FLAGS := fl;
     service_get_all_by_topic := get_services;
     instance_get := get_instance;
     host_get_by_name := get_host;
     instance_get_all_by_host := get_instances_by_host;
     volume_get_all_by_instance := get_volumes;
     instance_set_state := set_state;
     volume_update := update_volume;
     queue_get_for := queue_for;
     rpc_call := rpc;
     clock := clk |}.

Definition start (st : store) : World store :=
  {| w_db := st; w_ticks := 0; w_trace := [] |}.

End MemDb.

(** The module's own default for [service_down_time] and nova's default
    compute topic. *)
Definition default_flags : flags :=
  {| service_down_time := 60; compute_topic := "compute" |}.

(** ** Reading the outcome of a run *)

(** The calls a run added to the trace. *)
Definition new_events {DB} (w w' : World DB) : list event :=
  skipn (List.length (w_trace w)) (w_trace w').

(** No request that changes the registry among the calls. *)
Definition no_mutation (evs : list event) : Prop :=
  forall ev, In ev evs -> is_mutation ev = false.

(** ** The rules of the precondition chain, in the order of section 4.4 *)

Inductive rule :=
| InstanceExists
| InstanceRunning
| DestinationExists
| DestinationDiffers
| DestinationIsCompute
| DestinationIsUp
| HypervisorTypeEqual
| HypervisorVersionNotOlder
| CpuInfoShape.

Definition chain_order : list rule :=
  [InstanceExists; InstanceRunning; DestinationExists; DestinationDiffers;
   DestinationIsCompute; DestinationIsUp; HypervisorTypeEqual;
   HypervisorVersionNotOlder; CpuInfoShape].

Definition rule_eqb (a b : rule) : bool :=
  match a, b with
  | InstanceExists, InstanceExists
  | InstanceRunning, InstanceRunning
  | DestinationExists, DestinationExists
  | DestinationDiffers, DestinationDiffers
  | DestinationIsCompute, DestinationIsCompute
  | DestinationIsUp, DestinationIsUp
  | HypervisorTypeEqual, HypervisorTypeEqual
  | HypervisorVersionNotOlder, HypervisorVersionNotOlder
  | CpuInfoShape, CpuInfoShape => true
  | _, _ => false
  end.

(** The rules of [rules] up to and including [r]. *)
Fixpoint rules_upto (r : rule) (rules : list rule) : list rule :=
  match rules with
  | [] => []
  | x :: rules' => if rule_eqb x r then [x] else x :: rules_upto r rules'
  end.

(** The rules checked before [r]. *)
Fixpoint rules_before_in (r : rule) (rules : list rule) : list rule :=
  match rules with
  | [] => []
  | x :: rules' => if rule_eqb x r then [] else x :: rules_before_in r rules'
  end.

Definition rules_before (r : rule) : list rule := rules_before_in r chain_order.

(** ** Vocabulary of the properties *)

Section Vocabulary.

Context {DB : Type} (env : Env DB).

(** The liveness test at a given reading of the clock. *)
Definition service_up_at (now : Z) (s : service) : bool :=
  now - last_heartbeat_of s <? timedelta_seconds (service_down_time (FLAGS env)).

(** The specification's heartbeat: the later of [updated_at] and
    [created_at], [created_at] for a record that was never updated. *)
Definition spec_last_heartbeat (s : service) : Z :=
  match updated_at s with
  | Some u => Z.max u (created_at s)
  | None => created_at s
  end.

(** The services of [l] found up when the clock is read once per
    service, starting at its [n]-th reading. *)
Definition up_services (n : nat) (l : list service) : list service :=
  map snd
    (filter (fun p => service_up_at (clock env (fst p)) (snd p))
            (combine (seq n (List.length l)) l)).

(** *** The precondition chain of section 4.4

    The nine rules, each read on its own from the registry snapshot, with
    the error the chain gives when the rule is violated.  A rule whose
    data an earlier rule failed to load is not applicable and counts as
    not violated. *)

Definition is_running (i : instance) : bool :=
  power_state_eqb (i_state i) RUNNING &&
  String.eqb (i_state_description i) "running".

Definition dest_service (dest : string) (l : list service) : option service :=
  find (fun s => String.eqb (service_host s) dest) l.

Definition spec_violation (w : World DB) (instance_id : Z) (dest : string)
    (r : rule) : option exn :=
  let db := w_db w in
  match r with
  | InstanceExists =>
      match instance_get env db instance_id with
      | inl e => Some e
      | inr _ => None
      end
  | InstanceRunning =>
      match instance_get env db instance_id with
      | inr i =>
          if is_running i then None
          else Some (Invalid (py_format "Instance(%s) is not running"
                                [i_hostname i]))
      | inl _ => None
      end
  | DestinationExists =>
      match host_get_by_name env db dest with
      | inl e => Some e
      | inr _ => None
      end
  | DestinationDiffers =>
      match instance_get env db instance_id with
      | inr i =>
          if String.eqb dest (i_host i)
          then Some (Invalid
                       (py_format
                          "%s is where %s is running now. choose other host."
                          [dest; i_hostname i]))
          else None
      | inl _ => None
      end
  | DestinationIsCompute =>
      match service_get_all_by_topic env db "compute" with
      | inl e => Some e
      | inr l =>
          match dest_service dest l with
          | Some _ => None
          | None => Some (Invalid (py_format "%s must be compute node" [dest]))
          end
      end
  | DestinationIsUp =>
      match service_get_all_by_topic env db "compute" with
      | inr l =>
          match dest_service dest l with
          | Some s =>
              if service_up_at (clock env (w_ticks w)) s then None
              else Some (Invalid
                           (py_format
                              "%s is not alive(time synchronize problem?)"
                              [dest]))
          | None => None
          end
      | inl _ => None
      end
  | HypervisorTypeEqual =>
      match instance_get env db instance_id, host_get_by_name env db dest with
      | inr i, inr dhost =>
          match host_get_by_name env db (i_launched_on i) with
          | inl e => Some e
          | inr ohost =>
              if String.eqb (hypervisor_type ohost) (hypervisor_type dhost)
              then None
              else Some (Invalid
                           (py_format "Different hypervisor type(%s->%s)"
                              [hypervisor_type ohost; hypervisor_type dhost]))
          end
      | _, _ => None
      end
  | HypervisorVersionNotOlder =>
      match instance_get env db instance_id, host_get_by_name env db dest with
      | inr i, inr dhost =>
          match host_get_by_name env db (i_launched_on i) with
          | inr ohost =>
              if hypervisor_version dhost <? hypervisor_version ohost
              then Some (Invalid
                           (py_format "Older hypervisor version(%s->%s)"
                              [str_of_Z (hypervisor_version ohost);
                               str_of_Z (hypervisor_version dhost)]))
              else None
          | inl _ => None
          end
      | _, _ => None
      end
  | CpuInfoShape =>
      match instance_get env db instance_id with
      | inr i =>
          match host_get_by_name env db (i_launched_on i) with
          | inr ohost =>
              match cpu_info ohost with
              | PyStr _ => None
              | _ => Some (Invalid
                             (py_format
                                "Unexpected err: not found cpu_info for %s on DB.hosts"
                                [i_launched_on i]))
              end
          | inl _ => None
          end
      | inl _ => None
      end
  end.

(** The first violated rule of [rules], with its error. *)
Fixpoint first_violation_in (w : World DB) (instance_id : Z) (dest : string)
    (rules : list rule) : option (rule * exn) :=
  match rules with
  | [] => None
  | r :: rules' =>
      match spec_violation w instance_id dest r with
      | Some e => Some (r, e)
      | None => first_violation_in w instance_id dest rules'
      end
  end.

Definition first_violation (w : World DB) (instance_id : Z) (dest : string)
    : option (rule * exn) :=
  first_violation_in w instance_id dest chain_order.

(** The calls to the collaborators that checking a rule takes. *)
Definition rule_reads (w : World DB) (instance_id : Z) (dest : string)
    (r : rule) : list event :=
  match r with
  | InstanceExists => [EvInstanceGet instance_id]
  | DestinationExists => [EvHostGetByName dest]
  | DestinationIsCompute => [EvServiceGetAllByTopic "compute"]
  | DestinationIsUp => [EvUtcnow]
  | HypervisorTypeEqual =>
      match instance_get env (w_db w) instance_id with
      | inr i => [EvHostGetByName (i_launched_on i)]
      | inl _ => []
      end
  | InstanceRunning | DestinationDiffers
  | HypervisorVersionNotOlder | CpuInfoShape => []
  end.

(** The calls of the chain when it stops at rule [r]. *)
Definition reads_upto (w : World DB) (instance_id : Z) (dest : string)
    (r : rule) : list event :=
  flat_map (rule_reads w instance_id dest) (rules_upto r chain_order).

(** *** Capacity (section 4.6) *)

Definition sum_Z (l : list Z) : Z := fold_right Z.add 0 l.

(** What a host has left once the instances placed on it are counted. *)
Definition remaining_vcpu (h : host) (placed : list instance) : Z :=
  h_vcpus h - sum_Z (map i_vcpus placed).

Definition remaining_memory (h : host) (placed : list instance) : Z :=
  h_memory_mb h - sum_Z (map i_memory_mb placed).

Definition remaining_disk (h : host) (placed : list instance) : Z :=
  h_local_gb h - sum_Z (map i_local_gb placed).

Definition strictly_sufficient (i : instance) (h : host)
    (placed : list instance) : Prop :=
  remaining_vcpu h placed > i_vcpus i /\
  remaining_memory h placed > i_memory_mb i /\
  remaining_disk h placed > i_local_gb i.

(** The calls of the capacity check up to its verdict. *)
Definition capacity_events (instance_id : Z) (dest : string) (i : instance)
    (h : host) (placed : list instance) : list event :=
  [EvInstanceGet instance_id; EvHostGetByName dest;
   EvInstanceGetAllByHost dest;
   EvLog "debug"
     (py_format "host(%s) remains vcpu:%s mem:%s hdd:%s,"
        [dest; str_of_Z (remaining_vcpu h placed);
         str_of_Z (remaining_memory h placed);
         str_of_Z (remaining_disk h placed)]);
   EvLog "debug"
     (py_format "instance(%s) has vcpu:%s mem:%s hdd:%s,"
        [i_hostname i; str_of_Z (i_vcpus i); str_of_Z (i_memory_mb i);
         str_of_Z (i_local_gb i)])].

Definition capacity_accepted_event (dest : string) (i : instance) : event :=
  EvLog "debug" (py_format "%s has enough resource for %s" [dest; i_hostname i]).

(** *** Passing the chain *)

(** Rules 1 to 6 hold and the origin host is loaded: the chain reaches
    the hypervisor checks with these records. *)
Record reaches_hypervisor_checks (w : World DB) (instance_id : Z)
    (dest : string) (i : instance) (dhost ohost : host) : Prop := {
  rh_instance : instance_get env (w_db w) instance_id = inr i;
  rh_running : i_state i = RUNNING /\ i_state_description i = "running";
  rh_dest : host_get_by_name env (w_db w) dest = inr dhost;
  rh_differs : dest <> i_host i;
  rh_alive :
    exists l s,
      service_get_all_by_topic env (w_db w) "compute" = inr l /\
      dest_service dest l = Some s /\
      service_up_at (clock env (w_ticks w)) s = true;
  rh_origin : host_get_by_name env (w_db w) (i_launched_on i) = inr ohost
}.

(** All nine rules hold; [xml] is the origin's cpu_info. *)
Record chain_passes (w : World DB) (instance_id : Z) (dest : string)
    (i : instance) (dhost ohost : host) (xml : string) : Prop := {
  cp_reaches : reaches_hypervisor_checks w instance_id dest i dhost ohost;
  cp_type : hypervisor_type ohost = hypervisor_type dhost;
  cp_version : hypervisor_version ohost <= hypervisor_version dhost;
  cp_cpu_info : cpu_info ohost = PyStr xml
}.

(** The reads of a chain that passes. *)
Definition chain_reads (instance_id : Z) (dest : string) (i : instance)
    : list event :=
  [EvInstanceGet instance_id; EvHostGetByName dest;
   EvServiceGetAllByTopic "compute"; EvUtcnow;
   EvHostGetByName (i_launched_on i)].

(** *** The compatibility probe (section 4.5) *)

Definition compare_cpu_queue (dest : string) : string :=
  queue_get_for env (compute_topic (FLAGS env)) dest.

Definition compare_cpu_msg (xml : string) : rpc_msg :=
  {| rpc_method := "compare_cpu"; rpc_args := [("xml", xml)] |}.

Definition compare_cpu_ok (dest xml : string) : Prop :=
  exists answer,
    rpc_call env (compare_cpu_queue dest) (compare_cpu_msg xml) = inr answer.

(** An error that wraps [cause] the way the specification's
    RemoteCompatibilityCheckFailed does: a new error, distinct from the
    cause, whose arguments name the destination, the source and the
    instance. *)
Definition mentions (x : exn) (name : string) : Prop :=
  exists a, In a (exn_args x) /\ String.index 0 name a <> None.

Definition wraps_with_identifiers (x cause : exn)
    (dest src ec2_id : string) : Prop :=
  x <> cause /\
  mentions x dest /\ mentions x src /\ mentions x ec2_id.

(** *** All checks *)

Definition capacity_ok (w : World DB) (dest : string) (i : instance)
    (dhost : host) : Prop :=
  exists placed,
    instance_get_all_by_host env (w_db w) dest = inr placed /\
    strictly_sufficient i dhost placed.

(** Every precondition, the compatibility probe and the capacity check
    pass on the snapshot. *)
Definition checks_pass (w : World DB) (instance_id : Z) (dest : string) : Prop :=
  exists i dhost ohost xml,
    chain_passes w instance_id dest i dhost ohost xml /\
    compare_cpu_ok dest xml /\
    capacity_ok w dest i dhost.

(** The calls of a run whose checks all pass, up to the end of the
    capacity check. *)
Definition checks_events (instance_id : Z) (dest : string) (i : instance)
    (dhost : host) (xml : string) (placed : list instance) : list event :=
  chain_reads instance_id dest i ++
  [EvRpcCall (compare_cpu_queue dest) (compare_cpu_msg xml)] ++
  capacity_events instance_id dest i dhost placed ++
  [capacity_accepted_event dest i].

(** All checks pass, with the records they load and the instances
    [placed] on the destination. *)
Record checks_pass_with (w : World DB) (instance_id : Z) (dest : string)
    (i : instance) (dhost ohost : host) (xml : string)
    (placed : list instance) : Prop := {
  ck_chain : chain_passes w instance_id dest i dhost ohost xml;
  ck_probe : compare_cpu_ok dest xml;
  ck_placed : instance_get_all_by_host env (w_db w) dest = inr placed;
  ck_headroom : strictly_sufficient i dhost placed
}.

(** *** The commit (section 4.7) *)

Definition migrating : list (string * string) := [("status", "migrating")].

(** The registry after the volumes of [vols] were updated in turn, or
    the first error. *)
Fixpoint update_all (db : DB) (vols : list volume) : exn + DB :=
  match vols with
  | [] => inr db
  | v :: vols' =>
      match volume_update env db (vol_id v) migrating with
      | inr db' => update_all db' vols'
      | inl e => inl e
      end
  end.

Definition volume_update_events (vols : list volume) : list event :=
  map (fun v => EvVolumeUpdate (vol_id v) migrating) vols.

(** Lines 155-161 of [schedule_live_migration], the block that marks the
    volumes, as the run lemmas below refer to it. *)
Definition mark_volumes (instance_id : Z) : M DB unit :=
  try_except
    (bind (db_volume_get_all_by_instance env instance_id)
       (fun vols =>
          for_each vols
            (fun vol => db_volume_update env (vol_id vol)
                          [("status", "migrating")])))
    "NotFound"
    (fun _ => ret tt).

End Vocabulary.

(** ** Concrete inputs *)

Module Examples.

Definition second : Z := 1000000.

(** A bus on which every call succeeds. *)
Definition rpc_ok (queue : string) (msg : rpc_msg) : exn + string := inr "".

(** A clock that stands still at [now]. *)
Definition frozen (now : Z) : nat -> Z := fun _ => now.

(** A service whose last update is older than its creation stamp. *)
Definition backdated_service : service :=
  {| service_host := "host2"; service_topic := "compute";
     updated_at := Some 0; created_at := 100 * second |}.

Definition fresh_service : service :=
  {| service_host := "host2"; service_topic := "compute";
     updated_at := Some (100 * second); created_at := 0 |}.

Definition stale_service : service :=
  {| service_host := "host3"; service_topic := "compute";
     updated_at := None; created_at := 10 * second |}.

Definition empty_store : MemDb.store :=
  {| MemDb.services := []; MemDb.hosts := []; MemDb.instances := [];
     MemDb.volumes := []; MemDb.detached := [] |}.

Definition services_store : MemDb.store :=
  {| MemDb.services := [fresh_service; stale_service; backdated_service];
     MemDb.hosts := []; MemDb.instances := [];
     MemDb.volumes := []; MemDb.detached := [] |}.

(** The reference registry at second 110, default flags. *)
Definition env_at_110 : Env MemDb.store :=
  MemDb.mem_env default_flags rpc_ok (frozen (110 * second)).

(** A migration of instance 1 from host1 to host2. *)
Definition instance1 : instance :=
  {| i_id := 1; i_hostname := "i-00000001"; i_host := "host1";
     i_vcpus := 2; i_memory_mb := 2048; i_local_gb := 20;
     i_state := RUNNING; i_state_description := "running";
     i_launched_on := "host1" |}.

(** An instance already placed on host2. *)
Definition resident : instance :=
  {| i_id := 7; i_hostname := "i-00000007"; i_host := "host2";
     i_vcpus := 1; i_memory_mb := 1024; i_local_gb := 10;
     i_state := RUNNING; i_state_description := "running";
     i_launched_on := "host2" |}.

Definition host1 : host :=
  {| h_name := "host1"; h_vcpus := 8; h_memory_mb := 16384; h_local_gb := 500;
     hypervisor_type := "kvm"; hypervisor_version := 12003;
     cpu_info := PyStr "<cpu/>" |}.

Definition host2 : host :=
  {| h_name := "host2"; h_vcpus := 8; h_memory_mb := 16384; h_local_gb := 500;
     hypervisor_type := "kvm"; hypervisor_version := 12003;
     cpu_info := PyStr "<cpu/>" |}.

Definition compute1 : service :=
  {| service_host := "host1"; service_topic := "compute";
     updated_at := Some (100 * second); created_at := 0 |}.

Definition compute2 : service :=
  {| service_host := "host2"; service_topic := "compute";
     updated_at := Some (100 * second); created_at := 0 |}.

Definition volume1 : volume :=
  {| vol_id := 1; vol_instance_id := 1; vol_status := "in-use" |}.

Definition volume2 : volume :=
  {| vol_id := 2; vol_instance_id := 1; vol_status := "in-use" |}.

Definition migration_store : MemDb.store :=
  {| MemDb.services := [compute1; compute2];
     MemDb.hosts := [host1; host2];
     MemDb.instances := [instance1; resident];
     MemDb.volumes := [volume1; volume2];
     MemDb.detached := [] |}.

(** The same registry, where volume 1 is detached by another actor
    after the volumes were listed. *)
Definition detached_store : MemDb.store :=
  {| MemDb.services := [compute1; compute2];
     MemDb.hosts := [host1; host2];
     MemDb.instances := [instance1; resident];
     MemDb.volumes := [volume1; volume2];
     MemDb.detached := [1] |}.

(** An instance that is shut off, asked to move to the host it is on,
    which runs no compute service: rules 2, 4 and 5 are violated. *)
Definition halted : instance :=
  {| i_id := 1; i_hostname := "i-00000001"; i_host := "host2";
     i_vcpus := 2; i_memory_mb := 2048; i_local_gb := 20;
     i_state := SHUTOFF; i_state_description := "shutoff";
     i_launched_on := "host1" |}.

Definition halted_store : MemDb.store :=
  {| MemDb.services := [compute1];
     MemDb.hosts := [host1; host2];
     MemDb.instances := [halted];
     MemDb.volumes := [volume1];
     MemDb.detached := [] |}.

(** A bus whose transport times out, and one whose remote side fails. *)
Definition timeout_error : exn := Exn "Timeout" ["timed out"].

Definition rpc_timeout (queue : string) (msg : rpc_msg) : exn + string :=
  inl timeout_error.

Definition rpc_remote_error (queue : string) (msg : rpc_msg) : exn + string :=
  inl (RemoteError "Invalid" "CPU does not have compatibility" "Traceback").

Definition env_timeout : Env MemDb.store :=
  MemDb.mem_env default_flags rpc_timeout (frozen (110 * second)).

Definition env_remote_error : Env MemDb.store :=
  MemDb.mem_env default_flags rpc_remote_error (frozen (110 * second)).

End Examples.

(** ** A registry that fails on demand *)

Module Faulty.

(** The reference registry with failures injected: a read or a write
    named here raises the given error instead of answering. *)
Record faults := {
  services_error : option exn;          (* service_get_all_by_topic *)
  placed_error : option exn;            (* instance_get_all_by_host *)
  set_state_error : option exn;         (* instance_set_state *)
  listing_error : option exn;           (* volume_get_all_by_instance *)
  update_error : Z -> option exn        (* volume_update, per volume *)
}.

Definition none : faults :=
  {| services_error := None; placed_error := None; set_state_error := None;
     listing_error := None; update_error := fun _ => None |}.

Definition or_fail {A} (fault : option exn) (answer : exn + A) : exn + A :=
  match fault with
  | Some e => inl e
  | None => answer
  end.

Definition env (f : faults) (rpc : string -> rpc_msg -> exn + string)
    (clk : nat -> Z) : Env MemDb.store :=
  {| FLAGS := default_flags;
     service_get_all_by_topic :=
       fun st topic => or_fail (services_error f) (MemDb.get_services st topic);
     instance_get := MemDb.get_instance;
     host_get_by_name := MemDb.get_host;
     instance_get_all_by_host :=
       fun st name => or_fail (placed_error f) (MemDb.get_instances_by_host st name);
     volume_get_all_by_instance :=
       fun st id => or_fail (listing_error f) (MemDb.get_volumes st id);
     instance_set_state :=
       fun st id ps d => or_fail (set_state_error f) (MemDb.set_state st id ps d);
     volume_update :=
       fun st id values =>
         or_fail (update_error f id) (MemDb.update_volume st id values);
     queue_get_for := MemDb.queue_for;
     rpc_call := rpc;
     clock := clk |}.

Definition db_error : exn := Exn "DBError" ["connection lost"].

(** The registry is unreachable for the service listing. *)
Definition services_down : faults :=
  {| services_error := Some db_error; placed_error := None;
     set_state_error := None; listing_error := None;
     update_error := fun _ => None |}.

(** The listing of the instances of a host fails. *)
Definition placed_down : faults :=
  {| services_error := None; placed_error := Some db_error;
     set_state_error := None; listing_error := None;
     update_error := fun _ => None |}.

(** The state of an instance cannot be written. *)
Definition set_state_down : faults :=
  {| services_error := None; placed_error := None;
     set_state_error := Some db_error; listing_error := None;
     update_error := fun _ => None |}.

(** The volume listing reports not-found. *)
Definition no_volumes : faults :=
  {| services_error := None; placed_error := None;
     set_state_error := None;
     listing_error := Some (NotFound "No volume for instance 1");
     update_error := fun _ => None |}.

(** The update of volume 2 fails with an error that is not a not-found. *)
Definition volume2_locked : faults :=
  {| services_error := None; placed_error := None;
     set_state_error := None; listing_error := None;
     update_error := fun id => if Z.eqb id 2 then Some db_error else None |}.

(** A clock that advances one second per reading, from second 110. *)
Definition ticking : nat -> Z :=
  fun n => (110 + Z.of_nat n) * Examples.second.

End Faulty.

(* ================================================================== *)
(** * Properties *)
(* ================================================================== *)

Lemma power_state_eqb_eq a b : power_state_eqb a b = true <-> a = b.
Proof. destruct a, b; simpl; split; intro H; try reflexivity; discriminate. Qed.

Lemma new_events_app {DB} (w w' : World DB) evs :
  w_trace w' = w_trace w ++ evs -> new_events w w' = evs.
Proof.
  intros H. unfold new_events. rewrite H.
  rewrite skipn_app, skipn_all, Nat.sub_diag. reflexivity.
Qed.

(** Unfolding of the monad and of the calls to the collaborators. *)
Ltac run_py :=
  cbv beta iota zeta delta
    [bind ret raise raise_if try_except index0 unbound_name
     utcnow logging_debug logging_error db_read db_write
     db_service_get_all_by_topic db_instance_get db_host_get_by_name
     db_instance_get_all_by_host db_volume_get_all_by_instance
     db_instance_set_state db_volume_update rpc_dot_call
     log_event set_db tick w_db w_ticks w_trace fst snd].

(** ** Liveness and the hosts that are up *)

Section Liveness.

Context {DB : Type} (env : Env DB).

Lemma service_is_up_run (s : service) (w : World DB) :
  service_is_up env s w =
  (inr (service_up_at env (clock env (w_ticks w)) s), tick (log_event EvUtcnow w)).
Proof. reflexivity. Qed.

Lemma up_services_cons n s l :
  up_services env n (s :: l) =
  if service_up_at env (clock env n) s
  then s :: up_services env (S n) l else up_services env (S n) l.
Proof.
  unfold up_services. simpl.
  destruct (service_up_at env (clock env n) s); reflexivity.
Qed.

Lemma list_comprehension_service_is_up (l : list service) :
  forall w : World DB,
    list_comprehension l (service_is_up env) service_host w =
    (inr (map service_host (up_services env (w_ticks w) l)),
     {| w_db := w_db w;
        w_ticks := w_ticks w + List.length l;
        w_trace := w_trace w ++ repeat EvUtcnow (List.length l) |}).
Proof.
  induction l as [|s l IH]; intros [db n tr].
  - cbn. rewrite Nat.add_0_r, app_nil_r. reflexivity.
  - cbn [list_comprehension]. unfold bind at 1.
    rewrite service_is_up_run. unfold bind at 1.
    rewrite IH. unfold ret, tick, log_event. cbn [w_db w_ticks w_trace List.length repeat].
    rewrite up_services_cons, <- app_assoc, Nat.add_succ_r. cbn [app Nat.add].
    destruct (service_up_at env (clock env n) s); reflexivity.
Qed.

End Liveness.

(** The test never fails, reads the clock once and nothing else. *)
Lemma service_is_up_total {DB} (env : Env DB) (s : service) (w : World DB) :
  exists b, service_is_up env s w = (inr b, tick (log_event EvUtcnow w)).
Proof. eexists. apply service_is_up_run. Qed.

Lemma up_services_frozen {DB} (env : Env DB) (now : Z) (l : list service) :
  (forall n, clock env n = now) ->
  forall n, up_services env n l = filter (service_up_at env now) l.
Proof.
  intros Hclock. induction l as [|s l IH]; intros n.
  - reflexivity.
  - rewrite up_services_cons, Hclock, IH. reflexivity.
Qed.

(** C5, as the code has it: [service_is_up] answers true exactly when
    [now - h < timeout], where [h] is [updated_at] when the record has
    one and [created_at] otherwise.  The comparison is strict: at an age
    equal to the timeout the answer is false.  [h] is the later of the
    two stamps whenever [updated_at] is not earlier than [created_at]. *)
Theorem service_is_up_heartbeat_age :
  forall {DB} (env : Env DB) (s : service) (w : World DB),
    let now := clock env (w_ticks w) in
    let t := timedelta_seconds (service_down_time (FLAGS env)) in
    let h := match updated_at s with Some u => u | None => created_at s end in
    (fst (service_is_up env s w) = inr true <-> now - h < t) /\
    (fst (service_is_up env s w) = inr false <-> t <= now - h) /\
    (now - h = t -> fst (service_is_up env s w) = inr false) /\
    ((forall u, updated_at s = Some u -> created_at s <= u) ->
     h = spec_last_heartbeat s).
Proof.
  intros DB env s w now t h.
  rewrite service_is_up_run. cbn [fst].
  unfold service_up_at, last_heartbeat_of. fold now t h.
  repeat split.
  - intros H. injection H as H. apply Z.ltb_lt in H. exact H.
  - intros H. apply Z.ltb_lt in H. rewrite H. reflexivity.
  - intros H. injection H as H. apply Z.ltb_ge in H. exact H.
  - intros H. apply Z.ltb_ge in H. rewrite H. reflexivity.
  - intros H. rewrite H, Z.ltb_irrefl. reflexivity.
  - intros H. unfold h, spec_last_heartbeat.
    destruct (updated_at s) as [u|]; [|reflexivity].
    specialize (H u eq_refl). lia.
Qed.

Lemma service_is_up_heartbeat_age_witness :
  (forall u, updated_at Examples.fresh_service = Some u ->
             created_at Examples.fresh_service <= u) /\
  100 * Examples.second = spec_last_heartbeat Examples.fresh_service.
Proof.
  assert (H : forall u, updated_at Examples.fresh_service = Some u ->
                        created_at Examples.fresh_service <= u).
  { intros u Hu. injection Hu as <-. vm_compute. discriminate. }
  split; [exact H|].
  exact (proj2 (proj2 (proj2
           (service_is_up_heartbeat_age Examples.env_at_110
              Examples.fresh_service (MemDb.start Examples.empty_store)))) H).
Defined.

(** C5 as stated fails: a record updated at second 0 and created at
    second 100 is, at second 110 with a timeout of 60 seconds, 10
    seconds old by the later of its two stamps, yet is reported down. *)
Lemma service_is_up_later_stamp_counterexample :
  ~ (fst (service_is_up Examples.env_at_110 Examples.backdated_service
            (MemDb.start Examples.empty_store)) = inr true <->
     clock Examples.env_at_110 0
       - spec_last_heartbeat Examples.backdated_service
     < timedelta_seconds (service_down_time (FLAGS Examples.env_at_110))).
Proof.
  intros [_ H].
  assert (Hlt : clock Examples.env_at_110 0
                  - spec_last_heartbeat Examples.backdated_service
                < timedelta_seconds (service_down_time (FLAGS Examples.env_at_110)))
    by (vm_compute; reflexivity).
  specialize (H Hlt). vm_compute in H. discriminate H.
Qed.

(** A heartbeat 10 seconds old is up, one 100 seconds old is down, with
    the default timeout of 60 seconds. *)
Example service_is_up_fresh :
  fst (service_is_up Examples.env_at_110 Examples.fresh_service
         (MemDb.start Examples.empty_store)) = inr true.
Proof. reflexivity. Qed.

Example service_is_up_stale :
  fst (service_is_up Examples.env_at_110 Examples.stale_service
         (MemDb.start Examples.empty_store)) = inr false.
Proof. reflexivity. Qed.

(** C9: [hosts_up] returns the hosts of exactly the services the
    registry lists for the topic that [service_is_up] finds up, in the
    registry's order.  The clock is read once per service; with a clock
    that stands still the result is the plain filter. *)
Theorem hosts_up_exact :
  forall {DB} (env : Env DB) (topic : string) (w : World DB)
         (services : list service),
    service_get_all_by_topic env (w_db w) topic = inr services ->
    fst (hosts_up env topic w) =
      inr (map service_host (up_services env (w_ticks w) services)) /\
    (forall s w0, fst (service_is_up env s w0) =
                  inr (service_up_at env (clock env (w_ticks w0)) s)) /\
    (forall now, (forall n, clock env n = now) ->
       fst (hosts_up env topic w) =
         inr (map service_host (filter (service_up_at env now) services))) /\
    w_db (snd (hosts_up env topic w)) = w_db w.
Proof.
  intros DB env topic w services Hread.
  assert (Hrun : hosts_up env topic w =
                 (inr (map service_host (up_services env (w_ticks w) services)),
                  {| w_db := w_db w;
                     w_ticks := w_ticks w + List.length services;
                     w_trace := (w_trace w ++ [EvServiceGetAllByTopic topic])
                                ++ repeat EvUtcnow (List.length services) |})).
  { unfold hosts_up, bind, db_service_get_all_by_topic, db_read.
    rewrite Hread, list_comprehension_service_is_up. reflexivity. }
  rewrite Hrun. cbn [fst snd w_db]. repeat split.
  intros now Hclock. rewrite (up_services_frozen env now services Hclock).
  reflexivity.
Qed.

Lemma hosts_up_exact_witness :
  fst (hosts_up Examples.env_at_110 "compute"
         (MemDb.start Examples.services_store)) = inr ["host2"].
Proof.
  assert (H : service_get_all_by_topic Examples.env_at_110
                (w_db (MemDb.start Examples.services_store)) "compute" =
              inr (MemDb.services Examples.services_store))
    by reflexivity.
  rewrite (proj1 (hosts_up_exact Examples.env_at_110 "compute"
                    (MemDb.start Examples.services_store) _ H)).
  reflexivity.
Defined.

(** ** The precondition chain *)

Section Chain.

Context {DB : Type} (env : Env DB).

Lemma find_filter {A} (f : A -> bool) (l : list A) :
  find f l = match filter f l with [] => None | x :: _ => Some x end.
Proof.
  induction l as [|a l IH]; [reflexivity|].
  simpl. destruct (f a); [reflexivity|exact IH].
Qed.

Lemma existsb_dest_service (dest : string) (l : list service) :
  existsb (String.eqb dest) (map service_host l) =
  match dest_service dest l with Some _ => true | None => false end.
Proof.
  unfold dest_service. induction l as [|s l IH]; [reflexivity|].
  cbn [map existsb find]. rewrite (String.eqb_sym dest).
  destruct (String.eqb (service_host s) dest); [reflexivity|exact IH].
Qed.

Lemma dest_service_host (dest : string) (l : list service) (s : service) :
  dest_service dest l = Some s -> service_host s = dest /\ In s l.
Proof.
  unfold dest_service. intros H. apply find_some in H as [Hin Heq].
  apply String.eqb_eq in Heq. auto.
Qed.

Lemma is_running_code (i : instance) :
  negb (power_state_eqb RUNNING (i_state i)) ||
  negb (String.eqb "running" (i_state_description i)) = negb (is_running i).
Proof.
  unfold is_running. rewrite (String.eqb_sym "running").
  destruct (i_state i); cbn [power_state_eqb negb orb andb];
    try reflexivity.
Qed.

Ltac in_chain H E := rewrite ?E in H; cbv beta iota in H.

Ltac stop_here H :=
  injection H as <- <-;
  cbn [rules_upto rule_eqb flat_map rule_reads app w_db];
  repeat match goal with
         | E : instance_get _ _ _ = _ |- _ => rewrite E
         end;
  cbv beta iota; rewrite <- ?app_assoc; repeat split; reflexivity.

(** The run of the chain on a snapshot whose first violated rule is [r]. *)
Lemma chain_stops_at_first_violation :
  forall (w : World DB) (instance_id : Z) (dest : string) (r : rule) (e : exn),
    first_violation env w instance_id dest = Some (r, e) ->
    fst (schedule_live_migration env instance_id dest w) = inl e /\
    w_db (snd (schedule_live_migration env instance_id dest w)) = w_db w /\
    w_trace (snd (schedule_live_migration env instance_id dest w)) =
      w_trace w ++ reads_upto env w instance_id dest r.
Proof.
  intros [db n tr] id dest r e H.
  unfold first_violation, chain_order in H.
  cbn [first_violation_in spec_violation w_db w_ticks] in H.
  unfold service_up_at in H.
  unfold reads_upto, chain_order. cbn [w_db w_trace].
  unfold schedule_live_migration, service_is_up, gettext. run_py.
  destruct (instance_get env db id) as [e1|inst] eqn:Hinst.
  { stop_here H. }
  in_chain H Hinst. rewrite is_running_code.
  destruct (is_running inst) eqn:Hrun; cbn [negb]; cbv beta iota.
  2: { stop_here H. }
  destruct (host_get_by_name env db dest) as [e3|dhost] eqn:Hdhost.
  { stop_here H. }
  destruct (String.eqb dest (i_host inst)) eqn:Hsrc.
  { stop_here H. }
  destruct (service_get_all_by_topic env db "compute") as [e5|ss] eqn:Hss.
  { stop_here H. }
  rewrite existsb_dest_service.
  destruct (dest_service dest ss) as [svc|] eqn:Hsvc; cbn [negb]; cbv beta iota.
  2: { stop_here H. }
  unfold dest_service in Hsvc. rewrite find_filter in Hsvc.
  destruct (filter (fun s => String.eqb (service_host s) dest) ss)
    as [|svc' rest] eqn:Hfilter; [discriminate Hsvc|].
  injection Hsvc as ->. cbv beta iota.
  destruct (clock env n - last_heartbeat_of svc <?
            timedelta_seconds (service_down_time (FLAGS env))) eqn:Hup;
    cbn [negb]; cbv beta iota.
  2: { stop_here H. }
  destruct (host_get_by_name env db (i_launched_on inst)) as [e7|ohost] eqn:Hohost.
  { stop_here H. }
  destruct (String.eqb (hypervisor_type ohost) (hypervisor_type dhost)) eqn:Htype;
    cbn [negb]; cbv beta iota.
  2: { stop_here H. }
  rewrite Z.gtb_ltb.
  destruct (hypervisor_version dhost <? hypervisor_version ohost) eqn:Hver;
    cbv beta iota.
  { stop_here H. }
  destruct (cpu_info ohost) as [|xml|u|z] eqn:Hcpu; cbv beta iota;
    try discriminate H; stop_here H.
Qed.

(** A rule is the first violated one when it is violated and no rule
    checked before it is. *)
Lemma first_violation_intro (w : World DB) (instance_id : Z) (dest : string)
    (r : rule) (e : exn) :
  spec_violation env w instance_id dest r = Some e ->
  (forall r', In r' (rules_before r) ->
              spec_violation env w instance_id dest r' = None) ->
  first_violation env w instance_id dest = Some (r, e).
Proof.
  intros Hr Hbefore. unfold first_violation.
  destruct r; cbn [chain_order first_violation_in];
    repeat (rewrite Hbefore by (cbn; tauto));
    rewrite Hr; reflexivity.
Qed.

Lemma first_violation_elim (w : World DB) (instance_id : Z) (dest : string)
    (r : rule) (e : exn) :
  first_violation env w instance_id dest = Some (r, e) ->
  spec_violation env w instance_id dest r = Some e /\
  (forall r', In r' (rules_before r) ->
              spec_violation env w instance_id dest r' = None).
Proof.
  unfold first_violation. cbn [chain_order first_violation_in].
  repeat match goal with
         | |- context [match spec_violation env w instance_id dest ?x with _ => _ end] =>
             let E := fresh "E" in
             destruct (spec_violation env w instance_id dest x) eqn:E;
             [ intros H; injection H as <- <-; split; [exact E|];
               intros r' Hin; cbn in Hin;
               repeat (destruct Hin as [<-|Hin]; [assumption|]);
               destruct Hin
             | ]
         end.
  intros H; discriminate H.
Qed.

(** C1: the chain checks its rules in the order of section 4.4 and stops
    at the first violated one.  Whatever later rules the input also
    violates, the error raised is the one of the first violated rule, the
    registry is untouched, and the calls made are those of the rules up
    to that one: no later check reads anything. *)
Theorem precondition_chain_short_circuits :
  forall (w : World DB) (instance_id : Z) (dest : string) (r : rule) (e : exn),
    spec_violation env w instance_id dest r = Some e ->
    (forall r', In r' (rules_before r) ->
                spec_violation env w instance_id dest r' = None) ->
    fst (schedule_live_migration env instance_id dest w) = inl e /\
    w_db (snd (schedule_live_migration env instance_id dest w)) = w_db w /\
    new_events w (snd (schedule_live_migration env instance_id dest w)) =
      reads_upto env w instance_id dest r.
Proof.
  intros w id dest r e Hr Hbefore.
  destruct (chain_stops_at_first_violation w id dest r e
              (first_violation_intro w id dest r e Hr Hbefore))
    as (Hres & Hdb & Htrace).
  repeat split; try assumption.
  apply new_events_app. exact Htrace.
Qed.

End Chain.

(** ** Capacity *)

Section Capacity.
Context {DB : Type} (env : Env DB).

Lemma fold_left_remaining (placed : list instance) :
  forall c m h : Z,
    fold_left
      (fun '(total_cpu, total_mem, total_hdd) i_ref =>
         (total_cpu - i_vcpus i_ref,
          total_mem - i_memory_mb i_ref,
          total_hdd - i_local_gb i_ref))
      placed (c, m, h) =
    (c - sum_Z (map i_vcpus placed),
     m - sum_Z (map i_memory_mb placed),
     h - sum_Z (map i_local_gb placed)).
Proof.
  induction placed as [|i placed IH]; intros c m h.
  - cbn. f_equal; [f_equal|]; lia.
  - cbn [fold_left map sum_Z fold_right]. rewrite IH.
    fold (sum_Z (map i_vcpus placed)) (sum_Z (map i_memory_mb placed))
         (sum_Z (map i_local_gb placed)).
    f_equal; [f_equal|]; lia.
Qed.

Lemma has_enough_resource_run (w : World DB) (instance_id : Z) (dest : string)
    (i : instance) (h : host) (placed : list instance) :
  instance_get env (w_db w) instance_id = inr i ->
  host_get_by_name env (w_db w) dest = inr h ->
  instance_get_all_by_host env (w_db w) dest = inr placed ->
  has_enough_resource env instance_id dest w =
  if (remaining_vcpu h placed <=? i_vcpus i) ||
     (remaining_memory h placed <=? i_memory_mb i) ||
     (remaining_disk h placed <=? i_local_gb i)
  then (inl (NotEmpty (py_format "%s doesnt have enough resource for %s"
                         [dest; i_hostname i])),
        {| w_db := w_db w; w_ticks := w_ticks w;
           w_trace := w_trace w ++ capacity_events instance_id dest i h placed |})
  else (inr tt,
        {| w_db := w_db w; w_ticks := w_ticks w;
           w_trace := w_trace w ++ capacity_events instance_id dest i h placed
                                ++ [capacity_accepted_event dest i] |}).
Proof.
  destruct w as [db n tr]. cbn [w_db w_ticks w_trace].
  intros Hi Hh Hp.
  unfold has_enough_resource, gettext. run_py.
  rewrite Hi. cbv beta iota. rewrite Hh. cbv beta iota. rewrite Hp. cbv beta iota.
  rewrite fold_left_remaining.
  unfold remaining_vcpu, remaining_memory, remaining_disk, capacity_events,
    capacity_accepted_event.
  destruct ((h_vcpus h - sum_Z (map i_vcpus placed) <=? i_vcpus i)
            || (h_memory_mb h - sum_Z (map i_memory_mb placed) <=? i_memory_mb i)
            || (h_local_gb h - sum_Z (map i_local_gb placed) <=? i_local_gb i));
    cbv beta iota; rewrite <- ?app_assoc; reflexivity.
Qed.

Lemma sufficient_bool (i : instance) (h : host) (placed : list instance) :
  (remaining_vcpu h placed <=? i_vcpus i) ||
  (remaining_memory h placed <=? i_memory_mb i) ||
  (remaining_disk h placed <=? i_local_gb i) = false <->
  strictly_sufficient i h placed.
Proof.
  unfold strictly_sufficient.
  rewrite !orb_false_iff, !Z.leb_gt. lia.
Qed.

(** C4: the capacity check subtracts, per dimension, what the instances
    placed on the destination use from the destination's total, succeeds
    exactly when what remains strictly exceeds the instance's demand in
    all three dimensions, and otherwise raises the error that names the
    destination and the instance; equality in a dimension is rejected. *)
Theorem has_enough_resource_strict :
  forall (w : World DB) (instance_id : Z) (dest : string)
         (i : instance) (h : host) (placed : list instance),
    instance_get env (w_db w) instance_id = inr i ->
    host_get_by_name env (w_db w) dest = inr h ->
    instance_get_all_by_host env (w_db w) dest = inr placed ->
    (fst (has_enough_resource env instance_id dest w) = inr tt <->
     h_vcpus h - sum_Z (map i_vcpus placed) > i_vcpus i /\
     h_memory_mb h - sum_Z (map i_memory_mb placed) > i_memory_mb i /\
     h_local_gb h - sum_Z (map i_local_gb placed) > i_local_gb i) /\
    (fst (has_enough_resource env instance_id dest w) <> inr tt ->
     fst (has_enough_resource env instance_id dest w) =
       inl (NotEmpty (py_format "%s doesnt have enough resource for %s"
                        [dest; i_hostname i]))) /\
    (h_vcpus h - sum_Z (map i_vcpus placed) = i_vcpus i \/
     h_memory_mb h - sum_Z (map i_memory_mb placed) = i_memory_mb i \/
     h_local_gb h - sum_Z (map i_local_gb placed) = i_local_gb i ->
     fst (has_enough_resource env instance_id dest w) =
       inl (NotEmpty (py_format "%s doesnt have enough resource for %s"
                        [dest; i_hostname i]))) /\
    w_db (snd (has_enough_resource env instance_id dest w)) = w_db w /\
    no_mutation (new_events w (snd (has_enough_resource env instance_id dest w))).
Proof.
  intros w id dest i h placed Hi Hh Hp.
  rewrite (has_enough_resource_run w id dest i h placed Hi Hh Hp).
  pose proof (sufficient_bool i h placed) as Hb.
  unfold strictly_sufficient, remaining_vcpu, remaining_memory, remaining_disk in *.
  destruct ((h_vcpus h - sum_Z (map i_vcpus placed) <=? i_vcpus i)
            || (h_memory_mb h - sum_Z (map i_memory_mb placed) <=? i_memory_mb i)
            || (h_local_gb h - sum_Z (map i_local_gb placed) <=? i_local_gb i));
    cbn [fst snd w_db].
  - split; [split; [intros H0; discriminate H0|]|].
    { intros H0. apply Hb in H0. discriminate H0. }
    split; [reflexivity|]. split; [reflexivity|]. split; [reflexivity|].
    intros ev Hev. erewrite new_events_app in Hev by reflexivity.
    cbn in Hev. repeat (destruct Hev as [<-|Hev]; [reflexivity|]). destruct Hev.
  - assert (Hs := proj1 Hb eq_refl).
    split; [split; [intros _; exact Hs|reflexivity]|].
    split; [intros H0; exfalso; apply H0; reflexivity|].
    split; [intros H0; exfalso; lia|].
    split; [reflexivity|].
    intros ev Hev. erewrite new_events_app in Hev by reflexivity.
    cbn in Hev. repeat (destruct Hev as [<-|Hev]; [reflexivity|]). destruct Hev.
Qed.
End Capacity.

(** ** From the chain to the commit *)

Section PastChain.
Context {DB : Type} (env : Env DB).

Lemma run_past_chain (w : World DB) (instance_id : Z) (dest : string)
    (i : instance) (dhost ohost : host) (xml : string) :
  chain_passes env w instance_id dest i dhost ohost xml ->
  schedule_live_migration env instance_id dest w =
  let w1 := {| w_db := w_db w; w_ticks := S (w_ticks w);
               w_trace := w_trace w ++ chain_reads instance_id dest i ++
                          [EvRpcCall (compare_cpu_queue env dest)
                                     (compare_cpu_msg xml)] |} in
  match rpc_call env (compare_cpu_queue env dest) (compare_cpu_msg xml) with
  | inl e =>
      if String.eqb (exn_class e) "RemoteError"
      then (inl (NameError (py_format "global name '%s' is not defined" ["ret"])), w1)
      else (inl e, w1)
  | inr _ =>
      match has_enough_resource env instance_id dest w1 with
      | (inl e, w2) => (inl e, w2)
      | (inr _, w2) =>
          match instance_set_state env (w_db w2) instance_id PAUSED "migrating" with
          | inl e =>
              (inl e, log_event (EvInstanceSetState instance_id PAUSED "migrating") w2)
          | inr db3 =>
              match mark_volumes env instance_id
                      (set_db db3
                         (log_event
                            (EvInstanceSetState instance_id PAUSED "migrating") w2))
              with
              | (inl e, w4) => (inl e, w4)
              | (inr _, w4) => (inr (i_host i), w4)
              end
          end
      end
  end.
Proof.
  destruct w as [db n tr].
  intros [[Hi [Hst Hdesc] Hd Hdiff (l & s & Hl & Hs & Hup) Ho] Hty Hver Hcpu].
  cbn [w_db w_ticks w_trace] in *.
  unfold schedule_live_migration, service_is_up, gettext.
  unfold compare_cpu_queue, compare_cpu_msg, chain_reads, mark_volumes.
  run_py.
  rewrite Hi. cbv beta iota.
  rewrite Hst, Hdesc. cbn [power_state_eqb negb orb]. rewrite String.eqb_refl.
  cbn [negb]. cbv beta iota.
  rewrite Hd. cbv beta iota.
  apply String.eqb_neq in Hdiff. rewrite Hdiff. cbv beta iota.
  rewrite Hl. cbv beta iota.
  rewrite existsb_dest_service, Hs. cbn [negb]. cbv beta iota.
  unfold dest_service in Hs. rewrite find_filter in Hs.
  destruct (filter (fun s0 => String.eqb (service_host s0) dest) l)
    as [|s' rest] eqn:Hf; [discriminate Hs|]. injection Hs as ->.
  cbv beta iota.
  unfold service_up_at in Hup. rewrite Hup. cbn [negb]. cbv beta iota.
  rewrite Ho. cbv beta iota.
  rewrite Hty, String.eqb_refl. cbn [negb]. cbv beta iota.
  replace (hypervisor_version ohost >? hypervisor_version dhost) with false
    by (symmetry; rewrite Z.gtb_ltb; apply Z.ltb_ge; exact Hver).
  cbv beta iota. rewrite Hcpu. cbv beta iota.
  rewrite <- !app_assoc. cbn [app].
  destruct (rpc_call env (queue_get_for env (compute_topic (FLAGS env)) dest)
              {| rpc_method := "compare_cpu"; rpc_args := [("xml", xml)] |})
    as [e|answer].
  - destruct (String.eqb (exn_class e) "RemoteError"); reflexivity.
  - destruct (has_enough_resource env instance_id dest _) as [[e|[]] [db2 n2 tr2]];
      [reflexivity|].
    destruct (instance_set_state env db2 instance_id PAUSED "migrating")
      as [e|db3]; [reflexivity|].
    destruct (volume_get_all_by_instance env db3 instance_id) as [e|vols].
    + destruct (String.eqb (exn_class e) "NotFound"); reflexivity.
    + destruct (for_each vols _ _) as [[e|[]] w4]; [|reflexivity].
      destruct (String.eqb (exn_class e) "NotFound"); reflexivity.
Qed.
End PastChain.

(** ** Reads of the capacity check, and the volume loop *)

Section Volumes.
Context {DB : Type} (env : Env DB).

Lemma no_mutation_app (a b : list event) :
  no_mutation a -> no_mutation b -> no_mutation (a ++ b).
Proof.
  intros Ha Hb ev Hin. apply in_app_or in Hin as [H|H]; auto.
Qed.

Lemma no_mutation_reads_upto (w : World DB) (instance_id : Z) (dest : string)
    (r : rule) :
  no_mutation (reads_upto env w instance_id dest r).
Proof.
  intros ev Hin. unfold reads_upto in Hin.
  apply in_flat_map in Hin as (r' & _ & Hin).
  destruct r'; cbn in Hin;
    try (destruct (instance_get env (w_db w) instance_id); cbn in Hin);
    repeat (destruct Hin as [<-|Hin]; [reflexivity|]); destruct Hin.
Qed.

(** The capacity check on any snapshot: it only reads and logs. *)
Lemma has_enough_resource_reads_only (w : World DB) (instance_id : Z)
    (dest : string) :
  exists evs,
    w_trace (snd (has_enough_resource env instance_id dest w)) = w_trace w ++ evs /\
    w_db (snd (has_enough_resource env instance_id dest w)) = w_db w /\
    w_ticks (snd (has_enough_resource env instance_id dest w)) = w_ticks w /\
    no_mutation evs.
Proof.
  destruct (instance_get env (w_db w) instance_id) as [e|i] eqn:Hi.
  { exists [EvInstanceGet instance_id]. destruct w as [db n tr].
    cbn [w_db] in Hi. unfold has_enough_resource. run_py. rewrite Hi.
    repeat split. intros ev [<-|[]]; reflexivity. }
  destruct (host_get_by_name env (w_db w) dest) as [e|h] eqn:Hh.
  { exists [EvInstanceGet instance_id; EvHostGetByName dest].
    destruct w as [db n tr]. cbn [w_db] in Hi, Hh.
    unfold has_enough_resource. run_py. rewrite Hi. cbv beta iota. rewrite Hh.
    cbv beta iota. rewrite <- !app_assoc. repeat split.
    intros ev [<-|[<-|[]]]; reflexivity. }
  destruct (instance_get_all_by_host env (w_db w) dest) as [e|placed] eqn:Hp.
  { exists [EvInstanceGet instance_id; EvHostGetByName dest;
            EvInstanceGetAllByHost dest].
    destruct w as [db n tr]. cbn [w_db] in Hi, Hh, Hp.
    unfold has_enough_resource. run_py. rewrite Hi. cbv beta iota. rewrite Hh.
    cbv beta iota. rewrite Hp. cbv beta iota. rewrite <- !app_assoc.
    repeat split. intros ev [<-|[<-|[<-|[]]]]; reflexivity. }
  rewrite (has_enough_resource_run env w instance_id dest i h placed Hi Hh Hp).
  destruct (_ || _).
  - exists (capacity_events instance_id dest i h placed). repeat split.
    intros ev Hin. cbn in Hin.
    repeat (destruct Hin as [<-|Hin]; [reflexivity|]). destruct Hin.
  - exists (capacity_events instance_id dest i h placed
            ++ [capacity_accepted_event dest i]). repeat split.
    intros ev Hin. cbn in Hin.
    repeat (destruct Hin as [<-|Hin]; [reflexivity|]). destruct Hin.
Qed.

(** The loop over the volumes, when every update succeeds. *)
Lemma for_each_update_ok (vols : list volume) :
  forall (w : World DB) (db' : DB),
    update_all env (w_db w) vols = inr db' ->
    for_each vols
      (fun vol => db_volume_update env (vol_id vol) [("status", "migrating")]) w =
    (inr tt, {| w_db := db'; w_ticks := w_ticks w;
                w_trace := w_trace w ++ volume_update_events vols |}).
Proof.
  induction vols as [|v vols IH]; intros [db n tr] db' H; cbn [w_db w_ticks w_trace] in *.
  - injection H as <-. cbn. rewrite app_nil_r. reflexivity.
  - cbn [update_all] in H. unfold migrating in H.
    destruct (volume_update env db (vol_id v) [("status", "migrating")])
      as [e|db1] eqn:Hv; [discriminate H|].
    cbn [for_each]. unfold bind at 1. unfold db_volume_update at 1, db_write.
    cbn [w_db]. rewrite Hv. cbv beta iota.
    unfold set_db, log_event. cbn [w_db w_ticks w_trace].
    erewrite IH by (cbn [w_db]; exact H). cbn [w_db w_ticks w_trace].
    cbn [volume_update_events map]. rewrite <- app_assoc. reflexivity.
Qed.

(** The loop over the volumes, when the update of [v] is the first to
    raise: the loop ends there and the volumes after [v] are not
    visited. *)
Lemma for_each_update_stops (pre : list volume) (v : volume)
    (post : list volume) (e : exn) :
  forall (w : World DB) (db' : DB),
    update_all env (w_db w) pre = inr db' ->
    volume_update env db' (vol_id v) migrating = inl e ->
    for_each (pre ++ v :: post)
      (fun vol => db_volume_update env (vol_id vol) [("status", "migrating")]) w =
    (inl e, {| w_db := db'; w_ticks := w_ticks w;
               w_trace := w_trace w ++ volume_update_events (pre ++ [v]) |}).
Proof.
  induction pre as [|p pre IH]; intros [db n tr] db' H Hv;
    cbn [w_db w_ticks w_trace] in *.
  - injection H as <-. cbn [app for_each]. unfold bind at 1.
    unfold db_volume_update at 1, db_write. cbn [w_db].
    unfold migrating in Hv. rewrite Hv. reflexivity.
  - cbn [update_all] in H. unfold migrating in H.
    destruct (volume_update env db (vol_id p) [("status", "migrating")])
      as [e1|db1] eqn:Hp; [discriminate H|].
    cbn [app for_each]. unfold bind at 1. unfold db_volume_update at 1, db_write.
    cbn [w_db]. rewrite Hp. cbv beta iota.
    unfold set_db, log_event. cbn [w_db w_ticks w_trace].
    erewrite IH by (cbn [w_db]; eassumption). cbn [w_db w_ticks w_trace].
    cbn [volume_update_events map app]. rewrite <- app_assoc. reflexivity.
Qed.

(** Every list of volumes either updates in full or stops at a first
    failing volume. *)
Lemma update_all_cases (vols : list volume) :
  forall db : DB,
    (exists db', update_all env db vols = inr db') \/
    (exists pre v post db' e,
        vols = pre ++ v :: post /\
        update_all env db pre = inr db' /\
        volume_update env db' (vol_id v) migrating = inl e).
Proof.
  induction vols as [|v vols IH]; intros db.
  - left. exists db. reflexivity.
  - destruct (volume_update env db (vol_id v) migrating) as [e|db1] eqn:Hv.
    + right. exists [], v, vols, db, e. repeat split. exact Hv.
    + destruct (IH db1) as [[db' H]|(pre & v' & post & db' & e & -> & H & Hv')].
      * left. exists db'. cbn [update_all]. rewrite Hv. exact H.
      * right. exists (v :: pre), v', post, db', e. repeat split; [|exact Hv'].
        cbn [update_all]. rewrite Hv. exact H.
Qed.

Lemma mark_volumes_listing_fails (w : World DB) (instance_id : Z) (e : exn) :
  volume_get_all_by_instance env (w_db w) instance_id = inl e ->
  mark_volumes env instance_id w =
  (if String.eqb (exn_class e) "NotFound" then inr tt else inl e,
   {| w_db := w_db w; w_ticks := w_ticks w;
      w_trace := w_trace w ++ [EvVolumeGetAllByInstance instance_id] |}).
Proof.
  destruct w as [db n tr]. cbn [w_db w_ticks w_trace]. intros H.
  unfold mark_volumes. run_py. rewrite H.
  destruct (String.eqb (exn_class e) "NotFound"); reflexivity.
Qed.

Lemma mark_volumes_ok (w : World DB) (instance_id : Z) (vols : list volume)
    (db' : DB) :
  volume_get_all_by_instance env (w_db w) instance_id = inr vols ->
  update_all env (w_db w) vols = inr db' ->
  mark_volumes env instance_id w =
  (inr tt,
   {| w_db := db'; w_ticks := w_ticks w;
      w_trace := w_trace w ++ EvVolumeGetAllByInstance instance_id
                              :: volume_update_events vols |}).
Proof.
  destruct w as [db n tr]. cbn [w_db w_ticks w_trace]. intros Hl Hu.
  unfold mark_volumes, try_except, bind, db_volume_get_all_by_instance, db_read.
  cbn [w_db]. rewrite Hl.
  erewrite for_each_update_ok by (cbn [log_event w_db]; exact Hu).
  cbn [log_event w_db w_ticks w_trace]. rewrite <- app_assoc. reflexivity.
Qed.

Lemma mark_volumes_stops (w : World DB) (instance_id : Z)
    (pre : list volume) (v : volume) (post : list volume) (db' : DB) (e : exn) :
  volume_get_all_by_instance env (w_db w) instance_id = inr (pre ++ v :: post) ->
  update_all env (w_db w) pre = inr db' ->
  volume_update env db' (vol_id v) migrating = inl e ->
  mark_volumes env instance_id w =
  (if String.eqb (exn_class e) "NotFound" then inr tt else inl e,
   {| w_db := db'; w_ticks := w_ticks w;
      w_trace := w_trace w ++ EvVolumeGetAllByInstance instance_id
                              :: volume_update_events (pre ++ [v]) |}).
Proof.
  destruct w as [db n tr]. cbn [w_db w_ticks w_trace]. intros Hl Hu Hv.
  unfold mark_volumes, try_except, bind, db_volume_get_all_by_instance, db_read.
  cbn [w_db]. rewrite Hl.
  erewrite for_each_update_stops
    by (cbn [log_event w_db]; eassumption).
  cbn [log_event w_db w_ticks w_trace]. rewrite <- app_assoc.
  destruct (String.eqb (exn_class e) "NotFound"); reflexivity.
Qed.

(** Whatever the registry answers, the block only adds calls to the
    trace and does not read the clock. *)
Lemma mark_volumes_extends (w : World DB) (instance_id : Z) :
  exists evs,
    w_trace (snd (mark_volumes env instance_id w)) = w_trace w ++ evs /\
    w_ticks (snd (mark_volumes env instance_id w)) = w_ticks w.
Proof.
  destruct (volume_get_all_by_instance env (w_db w) instance_id)
    as [e|vols] eqn:Hl.
  - rewrite (mark_volumes_listing_fails w instance_id e Hl).
    eexists. split; reflexivity.
  - destruct (update_all_cases vols (w_db w))
      as [[db' H]|(pre & v & post & db' & e & -> & H & Hv)].
    + rewrite (mark_volumes_ok w instance_id vols db' Hl H).
      eexists. split; reflexivity.
    + rewrite (mark_volumes_stops w instance_id pre v post db' e Hl H Hv).
      eexists. split; reflexivity.
Qed.
End Volumes.

(** ** Passing the chain and the capacity check *)

Section Passing.
Context {DB : Type} (env : Env DB).

Lemma is_running_true (i : instance) :
  is_running i = true <-> i_state i = RUNNING /\ i_state_description i = "running".
Proof.
  unfold is_running. rewrite andb_true_iff, power_state_eqb_eq, String.eqb_eq.
  reflexivity.
Qed.

(** No rule is violated exactly when the chain passes. *)
Lemma no_violation_chain_passes (w : World DB) (instance_id : Z) (dest : string) :
  first_violation env w instance_id dest = None ->
  exists i dhost ohost xml, chain_passes env w instance_id dest i dhost ohost xml.
Proof.
  unfold first_violation. cbn [chain_order first_violation_in spec_violation].
  destruct (instance_get env (w_db w) instance_id) as [e|i] eqn:Hi;
    [intros H; discriminate H|].
  destruct (is_running i) eqn:Hrun; [|intros H; discriminate H].
  destruct (host_get_by_name env (w_db w) dest) as [e|dhost] eqn:Hd;
    [intros H; discriminate H|].
  destruct (String.eqb dest (i_host i)) eqn:Hsrc; [intros H; discriminate H|].
  destruct (service_get_all_by_topic env (w_db w) "compute") as [e|l] eqn:Hl;
    [intros H; discriminate H|].
  destruct (dest_service dest l) as [s|] eqn:Hs; [|intros H; discriminate H].
  destruct (service_up_at env (clock env (w_ticks w)) s) eqn:Hup;
    [|intros H; discriminate H].
  destruct (host_get_by_name env (w_db w) (i_launched_on i)) as [e|ohost] eqn:Ho;
    [intros H; discriminate H|].
  destruct (String.eqb (hypervisor_type ohost) (hypervisor_type dhost)) eqn:Hty;
    [|intros H; discriminate H].
  destruct (hypervisor_version dhost <? hypervisor_version ohost) eqn:Hver;
    [intros H; discriminate H|].
  destruct (cpu_info ohost) as [|xml|u|z] eqn:Hcpu; intros H; try discriminate H.
  exists i, dhost, ohost, xml. split; [split|..].
  - exact Hi.
  - apply is_running_true. exact Hrun.
  - exact Hd.
  - apply String.eqb_neq. exact Hsrc.
  - exists l, s. auto.
  - exact Ho.
  - apply String.eqb_eq. exact Hty.
  - apply Z.ltb_ge. exact Hver.
  - exact Hcpu.
Qed.

Lemma chain_passes_no_violation (w : World DB) (instance_id : Z) (dest : string)
    (i : instance) (dhost ohost : host) (xml : string) :
  chain_passes env w instance_id dest i dhost ohost xml ->
  first_violation env w instance_id dest = None.
Proof.
  intros [[Hi Hrun Hd Hdiff (l & s & Hl & Hs & Hup) Ho] Hty Hver Hcpu].
  unfold first_violation. cbn [chain_order first_violation_in spec_violation].
  rewrite Hi, Hd, Hl, Hs, Hup, Ho, Hcpu.
  rewrite (proj2 (is_running_true i) Hrun).
  rewrite (proj2 (String.eqb_neq _ _) Hdiff).
  rewrite (proj2 (String.eqb_eq _ _) Hty).
  rewrite (proj2 (Z.ltb_ge _ _) Hver).
  reflexivity.
Qed.

(** A capacity check that succeeds found strict headroom. *)
Lemma has_enough_resource_ok_inv (w : World DB) (instance_id : Z) (dest : string)
    (i : instance) (h : host) :
  instance_get env (w_db w) instance_id = inr i ->
  host_get_by_name env (w_db w) dest = inr h ->
  fst (has_enough_resource env instance_id dest w) = inr tt ->
  capacity_ok env w dest i h.
Proof.
  intros Hi Hh.
  destruct (instance_get_all_by_host env (w_db w) dest) as [e|placed] eqn:Hp.
  - destruct w as [db n tr]. cbn [w_db] in *.
    unfold has_enough_resource. run_py. rewrite Hi. cbv beta iota.
    rewrite Hh. cbv beta iota. rewrite Hp. cbv beta iota.
    intros H; discriminate H.
  - rewrite (has_enough_resource_run env w instance_id dest i h placed Hi Hh Hp).
    destruct (_ || _) eqn:Hb; cbn [fst]; intros H; [discriminate H|].
    exists placed. split; [exact Hp|]. apply sufficient_bool. exact Hb.
Qed.
End Passing.

(** ** The migration as a whole *)

Section Migration.
Context {DB : Type} (env : Env DB).

Lemma chain_reads_no_mutation (instance_id : Z) (dest : string) (i : instance)
    (extra : list event) :
  no_mutation extra -> no_mutation (chain_reads instance_id dest i ++ extra).
Proof.
  intros H. apply no_mutation_app; [|exact H].
  intros ev Hin. cbn in Hin.
  repeat (destruct Hin as [<-|Hin]; [reflexivity|]). destruct Hin.
Qed.

(** The run on a snapshot on which every check passes, up to the first
    write. *)
Lemma run_to_commit (w : World DB) (instance_id : Z) (dest : string)
    (i : instance) (dhost ohost : host) (xml : string) (placed : list instance) :
  checks_pass_with env w instance_id dest i dhost ohost xml placed ->
  schedule_live_migration env instance_id dest w =
  let w2 := {| w_db := w_db w; w_ticks := S (w_ticks w);
               w_trace := w_trace w ++
                          checks_events env instance_id dest i dhost xml placed ++
                          [EvInstanceSetState instance_id PAUSED "migrating"] |} in
  match instance_set_state env (w_db w) instance_id PAUSED "migrating" with
  | inl e => (inl e, w2)
  | inr db3 =>
      match mark_volumes env instance_id (set_db db3 w2) with
      | (inl e, w4) => (inl e, w4)
      | (inr _, w4) => (inr (i_host i), w4)
      end
  end.
Proof.
  intros [Hchain [answer Hrpc] Hplaced Hroom].
  rewrite (run_past_chain env w instance_id dest i dhost ohost xml Hchain).
  cbv zeta. rewrite Hrpc.
  destruct Hchain as [[Hi _ Hd _ _ _] _ _ _].
  erewrite has_enough_resource_run by (cbn [w_db]; eassumption).
  rewrite (proj2 (sufficient_bool i dhost placed) Hroom).
  unfold log_event, set_db, checks_events. cbn [w_db w_ticks w_trace].
  rewrite <- !app_assoc.
  destruct (instance_set_state env (w_db w) instance_id PAUSED "migrating");
    reflexivity.
Qed.

(** The run when the chain passes and the compare-cpu call raises. *)
Lemma probe_failure_run (w : World DB) (instance_id : Z) (dest : string)
    (i : instance) (dhost ohost : host) (xml : string) (cause : exn) :
  chain_passes env w instance_id dest i dhost ohost xml ->
  rpc_call env (compare_cpu_queue env dest) (compare_cpu_msg xml) = inl cause ->
  schedule_live_migration env instance_id dest w =
  (inl (if String.eqb (exn_class cause) "RemoteError"
        then NameError "global name 'ret' is not defined"
        else cause),
   {| w_db := w_db w; w_ticks := S (w_ticks w);
      w_trace := w_trace w ++ chain_reads instance_id dest i ++
                 [EvRpcCall (compare_cpu_queue env dest) (compare_cpu_msg xml)] |}).
Proof.
  intros Hchain Hrpc.
  rewrite (run_past_chain env w instance_id dest i dhost ohost xml Hchain).
  cbv zeta. rewrite Hrpc.
  destruct (String.eqb (exn_class cause) "RemoteError"); reflexivity.
Qed.

Lemma probe_events_no_mutation (instance_id : Z) (dest : string) (i : instance)
    (xml : string) :
  no_mutation
    (chain_reads instance_id dest i ++
     [EvRpcCall (compare_cpu_queue env dest) (compare_cpu_msg xml)]).
Proof.
  apply chain_reads_no_mutation. intros ev [<-|[]]. reflexivity.
Qed.

(** C3, as the code has it: when the compare-cpu call fails, whatever
    the failure, the migration ends with an error before any write: the
    registry is untouched and the last call made is the remote one.  A
    failure that is not an [rpc.RemoteError] reaches the caller as it
    is: it is not wrapped and nothing is added to it. *)
Theorem compare_cpu_failure_aborts :
  forall (w : World DB) (instance_id : Z) (dest : string)
         (i : instance) (dhost ohost : host) (xml : string) (cause : exn),
    chain_passes env w instance_id dest i dhost ohost xml ->
    rpc_call env (compare_cpu_queue env dest) (compare_cpu_msg xml) = inl cause ->
    (exists x, fst (schedule_live_migration env instance_id dest w) = inl x) /\
    (exn_class cause <> "RemoteError" ->
     fst (schedule_live_migration env instance_id dest w) = inl cause) /\
    w_db (snd (schedule_live_migration env instance_id dest w)) = w_db w /\
    new_events w (snd (schedule_live_migration env instance_id dest w)) =
      chain_reads instance_id dest i ++
      [EvRpcCall (compare_cpu_queue env dest) (compare_cpu_msg xml)] /\
    no_mutation (new_events w (snd (schedule_live_migration env instance_id dest w))).
Proof.
  intros w id dest i dhost ohost xml cause Hchain Hrpc.
  rewrite (probe_failure_run w id dest i dhost ohost xml cause Hchain Hrpc).
  cbn [fst snd w_db]. erewrite new_events_app by reflexivity.
  split; [eexists; reflexivity|]. split.
  - intros Hne. apply String.eqb_neq in Hne. rewrite Hne. reflexivity.
  - split; [reflexivity|]. split; [reflexivity|].
    apply probe_events_no_mutation.
Qed.

(** The handler of [rpc.RemoteError] refers to a name that is never
    bound: the error that leaves it is a [NameError], and neither the
    log line nor the re-raise is reached. *)
Lemma remote_error_handler_name_error :
  forall (w : World DB) (instance_id : Z) (dest : string)
         (i : instance) (dhost ohost : host) (xml : string) (cause : exn),
    chain_passes env w instance_id dest i dhost ohost xml ->
    rpc_call env (compare_cpu_queue env dest) (compare_cpu_msg xml) = inl cause ->
    exn_class cause = "RemoteError" ->
    fst (schedule_live_migration env instance_id dest w) =
      inl (NameError "global name 'ret' is not defined").
Proof.
  intros w id dest i dhost ohost xml cause Hchain Hrpc Hcls.
  rewrite (probe_failure_run w id dest i dhost ohost xml cause Hchain Hrpc).
  rewrite Hcls. reflexivity.
Qed.

(** C6: when a precondition, the compatibility probe or the capacity
    check fails, the migration ends with an error, the registry is as it
    was, and neither an instance state change nor a volume update was
    requested. *)
Theorem failed_check_no_mutation :
  forall (w : World DB) (instance_id : Z) (dest : string),
    ~ checks_pass env w instance_id dest ->
    (exists e, fst (schedule_live_migration env instance_id dest w) = inl e) /\
    w_db (snd (schedule_live_migration env instance_id dest w)) = w_db w /\
    no_mutation (new_events w (snd (schedule_live_migration env instance_id dest w))).
Proof.
  intros w id dest Hfail.
  destruct (first_violation env w id dest) as [[r e]|] eqn:Hfirst.
  - destruct (chain_stops_at_first_violation env w id dest r e Hfirst)
      as (Hres & Hdb & Htrace).
    split; [exists e; exact Hres|]. split; [exact Hdb|].
    rewrite (new_events_app _ _ _ Htrace). apply no_mutation_reads_upto.
  - destruct (no_violation_chain_passes env w id dest Hfirst)
      as (i & dhost & ohost & xml & Hchain).
    destruct (rpc_call env (compare_cpu_queue env dest) (compare_cpu_msg xml))
      as [cause|answer] eqn:Hrpc.
    { rewrite (probe_failure_run w id dest i dhost ohost xml cause Hchain Hrpc).
      cbn [fst snd w_db]. erewrite new_events_app by reflexivity.
      split; [eexists; reflexivity|]. split; [reflexivity|].
      apply probe_events_no_mutation. }
    rewrite (run_past_chain env w id dest i dhost ohost xml Hchain).
    cbv zeta. rewrite Hrpc.
    set (w1 := {| w_db := w_db w; w_ticks := S (w_ticks w);
                  w_trace := w_trace w ++ chain_reads id dest i ++
                             [EvRpcCall (compare_cpu_queue env dest)
                                        (compare_cpu_msg xml)] |}).
    destruct (has_enough_resource_reads_only env w1 id dest)
      as (evs & Htr & Hdb & _ & Hnm).
    pose proof (has_enough_resource_ok_inv env w1 id dest i dhost) as Hinv.
    destruct (has_enough_resource env id dest w1) as [[e|[]] w2].
    + cbn [fst snd] in *. split; [exists e; reflexivity|].
      split; [exact Hdb|].
      erewrite new_events_app
        by (rewrite Htr; unfold w1; cbn [w_trace]; rewrite <- app_assoc; reflexivity).
      apply chain_reads_no_mutation.
      apply (no_mutation_app [EvRpcCall _ _] evs); [|exact Hnm].
      intros ev [<-|[]]. reflexivity.
    + exfalso. apply Hfail. exists i, dhost, ohost, xml.
      split; [exact Hchain|]. split; [exists answer; exact Hrpc|].
      destruct Hchain as [[Hi _ Hd _ _ _] _ _ _].
      apply (Hinv Hi Hd eq_refl).
Qed.
End Migration.

(** ** The commit *)

Section Commit.

Context {DB : Type} (env : Env DB).


(** C2, as the code has it: when the update of a volume reports
    not-found, the error is swallowed and the migration still returns the
    source host; the volumes listed before that one were updated, and
    the loop ends there: no update is requested for the volumes listed
    after it. *)
Theorem volume_not_found_ends_loop :
  forall (w : World DB) (instance_id : Z) (dest : string)
         (i : instance) (dhost ohost : host) (xml : string)
         (placed : list instance) (db1 : DB)
         (pre : list volume) (v : volume) (post : list volume)
         (db2 : DB) (e : exn),
    checks_pass_with env w instance_id dest i dhost ohost xml placed ->
    instance_set_state env (w_db w) instance_id PAUSED "migrating" = inr db1 ->
    volume_get_all_by_instance env db1 instance_id = inr (pre ++ v :: post) ->
    update_all env db1 pre = inr db2 ->
    volume_update env db2 (vol_id v) [("status", "migrating")] = inl e ->
    exn_class e = "NotFound" ->
    fst (schedule_live_migration env instance_id dest w) = inr (i_host i) /\
    w_db (snd (schedule_live_migration env instance_id dest w)) = db2 /\
    new_events w (snd (schedule_live_migration env instance_id dest w)) =
      checks_events env instance_id dest i dhost xml placed ++
      EvInstanceSetState instance_id PAUSED "migrating"
      :: EvVolumeGetAllByInstance instance_id
      :: map (fun v => EvVolumeUpdate (vol_id v) [("status", "migrating")])
             (pre ++ [v]).
Proof.
  intros w id dest i dhost ohost xml placed db1 pre v post db2 e
         Hchecks Hset Hlist Hupd Hv Hcls.
  rewrite (run_to_commit env w id dest i dhost ohost xml placed Hchecks).
  cbv zeta. rewrite Hset.
  erewrite mark_volumes_stops by (cbn [set_db w_db]; eassumption).
  rewrite Hcls. cbn [String.eqb Ascii.eqb Bool.eqb fst snd w_db set_db w_trace w_ticks].
  split; [reflexivity|]. split; [reflexivity|].
  apply new_events_app. rewrite <- !app_assoc. reflexivity.
Qed.

End Commit.

(** ** Hypervisor compatibility and the selection of the destination's
    service *)

Section Hypervisor.

Context {DB : Type} (env : Env DB).

(** The run of a chain that reaches the hypervisor checks and is stopped
    by one of them. *)
Lemma hypervisor_rejection (w : World DB) (instance_id : Z) (dest : string)
    (i : instance) (dhost ohost : host) (r : rule) (e : exn) :
  reaches_hypervisor_checks env w instance_id dest i dhost ohost ->
  (r = HypervisorTypeEqual \/
   r = HypervisorVersionNotOlder /\
   hypervisor_type ohost = hypervisor_type dhost) ->
  spec_violation env w instance_id dest r = Some e ->
  first_violation env w instance_id dest = Some (r, e).
Proof.
  intros [Hi Hrun Hd Hdiff (l & s & Hl & Hs & Hup) Ho] Hr He.
  apply first_violation_intro; [exact He|].
  intros r' Hin.
  assert (Hcases : In r' (rules_before HypervisorTypeEqual) \/
                   r' = HypervisorTypeEqual /\
                   hypervisor_type ohost = hypervisor_type dhost).
  { destruct Hr as [->|[-> Hty]]; [left; exact Hin|].
    cbn in Hin. cbn. intuition (subst; auto). }
  clear Hin Hr He.
  destruct Hcases as [Hin|[-> Hty]].
  - cbn in Hin.
    repeat (destruct Hin as [<-|Hin];
            [cbn [spec_violation];
             rewrite ?Hi, ?Hd, ?Hl, ?Hs, ?Hup,
               ?(proj2 (is_running_true i) Hrun),
               ?(proj2 (String.eqb_neq _ _) Hdiff);
             reflexivity|]).
    destruct Hin.
  - cbn [spec_violation]. rewrite Hi, Hd, Ho, Hty, String.eqb_refl. reflexivity.
Qed.

(** C8: once the chain reaches the hypervisor checks, a destination of
    another hypervisor type is rejected with the type error, a
    destination of the same type and an older version with the version
    error; and when every other check passes and the registry accepts
    the writes, the migration goes through exactly for the pairs of equal
    type whose destination version is not older than the origin's. *)
Theorem hypervisor_compatibility :
  forall (w : World DB) (instance_id : Z) (dest : string)
         (i : instance) (dhost ohost : host),
    reaches_hypervisor_checks env w instance_id dest i dhost ohost ->
    (hypervisor_type ohost <> hypervisor_type dhost ->
     fst (schedule_live_migration env instance_id dest w) =
       inl (Invalid (py_format "Different hypervisor type(%s->%s)"
                       [hypervisor_type ohost; hypervisor_type dhost]))) /\
    (hypervisor_type ohost = hypervisor_type dhost ->
     hypervisor_version dhost < hypervisor_version ohost ->
     fst (schedule_live_migration env instance_id dest w) =
       inl (Invalid (py_format "Older hypervisor version(%s->%s)"
                       [str_of_Z (hypervisor_version ohost);
                        str_of_Z (hypervisor_version dhost)]))) /\
    (forall (xml : string) (placed : list instance) (db1 : DB)
            (vols : list volume) (db2 : DB),
        cpu_info ohost = PyStr xml ->
        compare_cpu_ok env dest xml ->
        instance_get_all_by_host env (w_db w) dest = inr placed ->
        strictly_sufficient i dhost placed ->
        instance_set_state env (w_db w) instance_id PAUSED "migrating" = inr db1 ->
        volume_get_all_by_instance env db1 instance_id = inr vols ->
        update_all env db1 vols = inr db2 ->
        (fst (schedule_live_migration env instance_id dest w) = inr (i_host i) <->
         hypervisor_type ohost = hypervisor_type dhost /\
         hypervisor_version ohost <= hypervisor_version dhost)).
Proof.
  intros w id dest i dhost ohost Hreach.
  assert (Htype : hypervisor_type ohost <> hypervisor_type dhost ->
                  fst (schedule_live_migration env id dest w) =
                  inl (Invalid (py_format "Different hypervisor type(%s->%s)"
                                  [hypervisor_type ohost; hypervisor_type dhost]))).
  { intros Hne.
    apply (chain_stops_at_first_violation env w id dest HypervisorTypeEqual).
    apply (hypervisor_rejection w id dest i dhost ohost); [exact Hreach|auto|].
    destruct Hreach as [Hi _ Hd _ _ Ho]. cbn [spec_violation].
    rewrite Hi, Hd, Ho. rewrite (proj2 (String.eqb_neq _ _) Hne). reflexivity. }
  assert (Hver : hypervisor_type ohost = hypervisor_type dhost ->
                 hypervisor_version dhost < hypervisor_version ohost ->
                 fst (schedule_live_migration env id dest w) =
                 inl (Invalid (py_format "Older hypervisor version(%s->%s)"
                                 [str_of_Z (hypervisor_version ohost);
                                  str_of_Z (hypervisor_version dhost)]))).
  { intros Heq Hlt.
    apply (chain_stops_at_first_violation env w id dest HypervisorVersionNotOlder).
    apply (hypervisor_rejection w id dest i dhost ohost); [exact Hreach|auto|].
    destruct Hreach as [Hi _ Hd _ _ Ho]. cbn [spec_violation].
    rewrite Hi, Hd, Ho. rewrite (proj2 (Z.ltb_lt _ _) Hlt). reflexivity. }
  split; [exact Htype|]. split; [exact Hver|].
  intros xml placed db1 vols db2 Hcpu Hrpc Hplaced Hroom Hset Hlist Hupd.
  split.
  - intros Hok.
    destruct (string_dec (hypervisor_type ohost) (hypervisor_type dhost))
      as [Heq|Hne].
    + split; [exact Heq|].
      destruct (Z_lt_le_dec (hypervisor_version dhost) (hypervisor_version ohost))
        as [Hlt|Hle]; [|exact Hle].
      rewrite (Hver Heq Hlt) in Hok. discriminate Hok.
    + rewrite (Htype Hne) in Hok. discriminate Hok.
  - intros [Heq Hle].
    assert (Hchecks : checks_pass_with env w id dest i dhost ohost xml placed).
    { split; [split|..]; assumption. }
    rewrite (run_to_commit env w id dest i dhost ohost xml placed Hchecks).
    cbv zeta. rewrite Hset.
    erewrite mark_volumes_ok by (cbn [set_db w_db]; eassumption).
    reflexivity.
Qed.

End Hypervisor.

(** ** The destination's service record *)

Section DestinationService.

Context {DB : Type} (env : Env DB).

(** Every call of a chain that passes stays in the trace of the run. *)
Lemma past_chain_trace (w : World DB) (instance_id : Z) (dest : string)
    (i : instance) (dhost ohost : host) (xml : string) :
  chain_passes env w instance_id dest i dhost ohost xml ->
  exists tail,
    w_trace (snd (schedule_live_migration env instance_id dest w)) =
    w_trace w ++ chain_reads instance_id dest i ++ tail.
Proof.
  intros Hchain.
  rewrite (run_past_chain env w instance_id dest i dhost ohost xml Hchain).
  cbv zeta.
  set (w1 := {| w_db := w_db w; w_ticks := S (w_ticks w);
                w_trace := w_trace w ++ chain_reads instance_id dest i ++
                           [EvRpcCall (compare_cpu_queue env dest)
                                      (compare_cpu_msg xml)] |}).
  destruct (rpc_call env (compare_cpu_queue env dest) (compare_cpu_msg xml))
    as [cause|answer].
  { destruct (String.eqb (exn_class cause) "RemoteError");
      eexists; reflexivity. }
  destruct (has_enough_resource_reads_only env w1 instance_id dest)
    as (evs & Htr & _ & _ & _).
  destruct (has_enough_resource env instance_id dest w1) as [[e|[]] w2];
    cbn [fst snd] in Htr.
  { exists ([EvRpcCall (compare_cpu_queue env dest) (compare_cpu_msg xml)] ++ evs).
    cbn [snd]. rewrite Htr. unfold w1. cbn [w_trace].
    rewrite <- !app_assoc. reflexivity. }
  destruct (instance_set_state env (w_db w2) instance_id PAUSED "migrating")
    as [e|db3].
  { eexists. cbn [snd log_event w_trace]. rewrite Htr. unfold w1. cbn [w_trace].
    rewrite <- !app_assoc. reflexivity. }
  destruct (mark_volumes_extends env
              (set_db db3
                 (log_event (EvInstanceSetState instance_id PAUSED "migrating") w2))
              instance_id) as (evs' & Htr' & _).
  destruct (mark_volumes env instance_id _) as [[e|[]] w4];
    cbn [fst snd set_db log_event w_trace] in *;
    eexists; rewrite Htr', Htr; unfold w1; cbn [w_trace];
    rewrite <- !app_assoc; reflexivity.
Qed.

(** C10: when the destination is among the hosts of the compute
    services, the services whose host is the destination form a
    non-empty list: taking its first element succeeds, and the run goes
    on to read the clock for the liveness test of that record. *)
Theorem destination_service_selected :
  forall (w : World DB) (instance_id : Z) (dest : string)
         (i : instance) (dhost : host) (l : list service),
    instance_get env (w_db w) instance_id = inr i ->
    i_state i = RUNNING /\ i_state_description i = "running" ->
    host_get_by_name env (w_db w) dest = inr dhost ->
    dest <> i_host i ->
    service_get_all_by_topic env (w_db w) "compute" = inr l ->
    In dest (map service_host l) ->
    exists s rest,
      filter (fun s => String.eqb (service_host s) dest) l = s :: rest /\
      service_host s = dest /\
      (forall w0 : World DB,
          index0 (filter (fun s => String.eqb (service_host s) dest) l) w0 =
          (inr s, w0)) /\
      (exists tail,
          new_events w (snd (schedule_live_migration env instance_id dest w)) =
          [EvInstanceGet instance_id; EvHostGetByName dest;
           EvServiceGetAllByTopic "compute"; EvUtcnow] ++ tail) /\
      (service_up_at env (clock env (w_ticks w)) s = false ->
       fst (schedule_live_migration env instance_id dest w) =
         inl (Invalid (py_format "%s is not alive(time synchronize problem?)"
                         [dest]))).
Proof.
  intros w id dest i dhost l Hi Hrun Hd Hdiff Hl Hin.
  assert (Hex : existsb (String.eqb dest) (map service_host l) = true).
  { apply existsb_exists. exists dest. split; [exact Hin|apply String.eqb_refl]. }
  rewrite existsb_dest_service in Hex.
  destruct (dest_service dest l) as [s|] eqn:Hs; [clear Hex|discriminate Hex].
  pose proof Hs as Hfilter. unfold dest_service in Hfilter.
  rewrite find_filter in Hfilter.
  destruct (filter (fun s0 => String.eqb (service_host s0) dest) l)
    as [|s' rest] eqn:Hf; [discriminate Hfilter|]. injection Hfilter as ->.
  exists s, rest. split; [reflexivity|].
  split; [apply (dest_service_host dest l s Hs)|].
  split; [reflexivity|].
  assert (Hearly : forall r, In r (rules_before DestinationIsUp) ->
                             spec_violation env w id dest r = None).
  { intros r Hr. cbn in Hr.
    repeat (destruct Hr as [<-|Hr];
            [cbn [spec_violation];
             rewrite ?Hi, ?Hd, ?Hl, ?Hs,
               ?(proj2 (is_running_true i) Hrun),
               ?(proj2 (String.eqb_neq _ _) Hdiff);
             reflexivity|]).
    destruct Hr. }
  split.
  - destruct (first_violation env w id dest) as [[r e]|] eqn:Hfirst.
    + destruct (chain_stops_at_first_violation env w id dest r e Hfirst)
        as (_ & _ & Htrace).
      rewrite (new_events_app _ _ _ Htrace).
      apply first_violation_elim in Hfirst as [Hr _].
      unfold reads_upto.
      destruct r;
        try (rewrite Hearly in Hr by (cbn; tauto); discriminate Hr);
        cbn [chain_order rules_upto rule_eqb flat_map rule_reads app];
        rewrite ?Hi; eexists; reflexivity.
    + destruct (no_violation_chain_passes env w id dest Hfirst)
        as (i' & dhost' & ohost & xml & Hchain).
      destruct (past_chain_trace w id dest i' dhost' ohost xml Hchain)
        as (tail & Htrace).
      rewrite (new_events_app _ _ _ Htrace). eexists. reflexivity.
  - intros Hdown.
    apply (chain_stops_at_first_violation env w id dest DestinationIsUp).
    apply first_violation_intro; [|exact Hearly].
    cbn [spec_violation]. rewrite Hl, Hs, Hdown. reflexivity.
Qed.

End DestinationService.

(** ** The properties on concrete registries *)

Ltac concrete_chain :=
  split; [split|..];
  [ reflexivity
  | split; reflexivity
  | reflexivity
  | intros H; discriminate H
  | eexists _, _; split; [reflexivity|]; split; [reflexivity|];
    vm_compute; reflexivity
  | reflexivity
  | reflexivity
  | vm_compute; intros H; discriminate H
  | reflexivity ].

Lemma migration_chain_passes (rpc : string -> rpc_msg -> exn + string)
    (detached : list Z) :
  chain_passes
    (MemDb.mem_env default_flags rpc (Examples.frozen (110 * Examples.second)))
    (MemDb.start
       {| MemDb.services := [Examples.compute1; Examples.compute2];
          MemDb.hosts := [Examples.host1; Examples.host2];
          MemDb.instances := [Examples.instance1; Examples.resident];
          MemDb.volumes := [Examples.volume1; Examples.volume2];
          MemDb.detached := detached |})
    1 "host2" Examples.instance1 Examples.host2 Examples.host1 "<cpu/>".
Proof. concrete_chain. Qed.

Lemma migration_checks_pass (detached : list Z) :
  checks_pass_with Examples.env_at_110
    (MemDb.start
       {| MemDb.services := [Examples.compute1; Examples.compute2];
          MemDb.hosts := [Examples.host1; Examples.host2];
          MemDb.instances := [Examples.instance1; Examples.resident];
          MemDb.volumes := [Examples.volume1; Examples.volume2];
          MemDb.detached := detached |})
    1 "host2" Examples.instance1 Examples.host2 Examples.host1 "<cpu/>"
    [Examples.resident].
Proof.
  split.
  - apply migration_chain_passes.
  - exists "". reflexivity.
  - reflexivity.
  - unfold strictly_sufficient. vm_compute. repeat split.
Qed.

Lemma precondition_chain_short_circuits_witness :
  spec_violation Examples.env_at_110 (MemDb.start Examples.halted_store) 1 "host2"
    DestinationDiffers <> None /\
  spec_violation Examples.env_at_110 (MemDb.start Examples.halted_store) 1 "host2"
    DestinationIsCompute <> None /\
  fst (schedule_live_migration Examples.env_at_110 1 "host2"
         (MemDb.start Examples.halted_store)) =
    inl (Invalid "Instance(i-00000001) is not running") /\
  new_events (MemDb.start Examples.halted_store)
    (snd (schedule_live_migration Examples.env_at_110 1 "host2"
            (MemDb.start Examples.halted_store))) = [EvInstanceGet 1].
Proof.
  split; [vm_compute; intros H; discriminate H|].
  split; [vm_compute; intros H; discriminate H|].
  assert (Hr : spec_violation Examples.env_at_110
                 (MemDb.start Examples.halted_store) 1 "host2" InstanceRunning =
               Some (Invalid "Instance(i-00000001) is not running"))
    by reflexivity.
  assert (Hbefore : forall r',
             In r' (rules_before InstanceRunning) ->
             spec_violation Examples.env_at_110
               (MemDb.start Examples.halted_store) 1 "host2" r' = None).
  { intros r' [<-|[]]. reflexivity. }
  destruct (precondition_chain_short_circuits Examples.env_at_110
              (MemDb.start Examples.halted_store) 1 "host2" InstanceRunning _
              Hr Hbefore) as (Hres & _ & Hev).
  split; [exact Hres|exact Hev].
Defined.

Lemma has_enough_resource_strict_witness :
  fst (has_enough_resource Examples.env_at_110 1 "host2"
         (MemDb.start Examples.migration_store)) = inr tt <->
  8 - sum_Z [1] > 2 /\ 16384 - sum_Z [1024] > 2048 /\ 500 - sum_Z [10] > 20.
Proof.
  exact (proj1 (has_enough_resource_strict Examples.env_at_110
                  (MemDb.start Examples.migration_store) 1 "host2"
                  Examples.instance1 Examples.host2 [Examples.resident]
                  eq_refl eq_refl eq_refl)).
Defined.

Lemma compare_cpu_failure_aborts_witness :
  fst (schedule_live_migration Examples.env_timeout 1 "host2"
         (MemDb.start Examples.migration_store)) = inl Examples.timeout_error /\
  w_db (snd (schedule_live_migration Examples.env_timeout 1 "host2"
               (MemDb.start Examples.migration_store))) = Examples.migration_store.
Proof.
  assert (Hne : exn_class Examples.timeout_error <> "RemoteError")
    by (intros H; discriminate H).
  destruct (compare_cpu_failure_aborts Examples.env_timeout
              (MemDb.start Examples.migration_store) 1 "host2"
              Examples.instance1 Examples.host2 Examples.host1 "<cpu/>"
              Examples.timeout_error
              (migration_chain_passes Examples.rpc_timeout [])
              eq_refl) as (_ & Hcause & Hdb & _).
  split; [exact (Hcause Hne)|exact Hdb].
Defined.

(** C3 as stated fails: when the transport times out, the error that
    reaches the caller is the time-out itself: it is not a new error
    around the cause, and it names neither the destination, nor the
    source, nor the instance. *)
Lemma compare_cpu_failure_not_wrapped_counterexample :
  ~ (exists x,
        fst (schedule_live_migration Examples.env_timeout 1 "host2"
               (MemDb.start Examples.migration_store)) = inl x /\
        wraps_with_identifiers x Examples.timeout_error
          "host2" "host1" "i-00000001").
Proof.
  intros (x & Hx & _ & (a & Hin & Hidx) & _).
  vm_compute in Hx. injection Hx as <-.
  destruct Hin as [<-|[]]. apply Hidx. reflexivity.
Qed.

(** The same migration when the remote side answers with an
    [rpc.RemoteError]: the caller gets the [NameError] of the handler. *)
Example remote_error_reaches_caller_as_name_error :
  fst (schedule_live_migration Examples.env_remote_error 1 "host2"
         (MemDb.start Examples.migration_store)) =
  inl (NameError "global name 'ret' is not defined").
Proof.
  apply (remote_error_handler_name_error Examples.env_remote_error
           (MemDb.start Examples.migration_store) 1 "host2"
           Examples.instance1 Examples.host2 Examples.host1 "<cpu/>"
           (RemoteError "Invalid" "CPU does not have compatibility" "Traceback")
           (migration_chain_passes Examples.rpc_remote_error []));
    reflexivity.
Qed.

Lemma halted_checks_fail :
  ~ checks_pass Examples.env_at_110 (MemDb.start Examples.halted_store) 1 "host2".
Proof.
  intros (i & dhost & ohost & xml & [[Hi [Hst _] _ _ _ _] _ _ _] & _).
  vm_compute in Hi. injection Hi as <-. discriminate Hst.
Qed.

Lemma failed_check_no_mutation_witness :
  w_db (snd (schedule_live_migration Examples.env_at_110 1 "host2"
               (MemDb.start Examples.halted_store))) = Examples.halted_store /\
  no_mutation
    (new_events (MemDb.start Examples.halted_store)
       (snd (schedule_live_migration Examples.env_at_110 1 "host2"
               (MemDb.start Examples.halted_store)))).
Proof.
  exact (proj2 (failed_check_no_mutation Examples.env_at_110
                  (MemDb.start Examples.halted_store) 1 "host2"
                  halted_checks_fail)).
Defined.


Lemma volume_not_found_ends_loop_witness :
  fst (schedule_live_migration Examples.env_at_110 1 "host2"
         (MemDb.start Examples.detached_store)) = inr "host1" /\
  new_events (MemDb.start Examples.detached_store)
    (snd (schedule_live_migration Examples.env_at_110 1 "host2"
            (MemDb.start Examples.detached_store))) =
  checks_events Examples.env_at_110 1 "host2" Examples.instance1 Examples.host2
    "<cpu/>" [Examples.resident] ++
  [EvInstanceSetState 1 PAUSED "migrating"; EvVolumeGetAllByInstance 1;
   EvVolumeUpdate 1 [("status", "migrating")]].
Proof.
  destruct (volume_not_found_ends_loop Examples.env_at_110
              (MemDb.start Examples.detached_store) 1 "host2"
              Examples.instance1 Examples.host2 Examples.host1 "<cpu/>"
              [Examples.resident] _ [] Examples.volume1 [Examples.volume2] _
              (NotFound "Volume 1 not found")
              (migration_checks_pass [1]) eq_refl eq_refl eq_refl eq_refl eq_refl)
    as (Hres & _ & Hev).
  split; [exact Hres|exact Hev].
Defined.

(** C2 as stated fails: volumes 1 and 2 are attached and the update of
    volume 1 reports not-found; the migration returns, but volume 2 is
    neither updated nor asked to be: its status is still "in-use". *)
Lemma volume_not_found_skips_rest_counterexample :
  ~ (fst (schedule_live_migration Examples.env_at_110 1 "host2"
            (MemDb.start Examples.detached_store)) = inr "host1" /\
     forall v,
       In v [Examples.volume1; Examples.volume2] ->
       vol_id v <> 1 ->
       MemDb.status_of
         (w_db (snd (schedule_live_migration Examples.env_at_110 1 "host2"
                       (MemDb.start Examples.detached_store))))
         (vol_id v) = Some "migrating").
Proof.
  intros [_ H].
  specialize (H Examples.volume2 (or_intror (or_introl eq_refl))).
  assert (Hne : vol_id Examples.volume2 <> 1) by (intros E; discriminate E).
  specialize (H Hne). vm_compute in H. discriminate H.
Qed.

Lemma hypervisor_compatibility_witness :
  fst (schedule_live_migration Examples.env_at_110 1 "host2"
         (MemDb.start Examples.migration_store)) = inr "host1" <->
  hypervisor_type Examples.host1 = hypervisor_type Examples.host2 /\
  hypervisor_version Examples.host1 <= hypervisor_version Examples.host2.
Proof.
  assert (Hroom : strictly_sufficient Examples.instance1 Examples.host2
                    [Examples.resident])
    by (unfold strictly_sufficient; vm_compute; repeat split).
  exact (proj2 (proj2
           (hypervisor_compatibility Examples.env_at_110
              (MemDb.start Examples.migration_store) 1 "host2"
              Examples.instance1 Examples.host2 Examples.host1
              (cp_reaches _ _ _ _ _ _ _ _ (migration_chain_passes Examples.rpc_ok []))))
           "<cpu/>" [Examples.resident] _ [Examples.volume1; Examples.volume2] _
           eq_refl (ex_intro _ "" eq_refl) eq_refl Hroom eq_refl eq_refl eq_refl).
Defined.

Lemma destination_service_selected_witness :
  exists s rest,
    filter (fun s => String.eqb (service_host s) "host2")
           [Examples.compute1; Examples.compute2] = s :: rest /\
    service_host s = "host2".
Proof.
  assert (Hin : In "host2"
                  (map service_host [Examples.compute1; Examples.compute2]))
    by (right; left; reflexivity).
  assert (Hdiff : "host2" <> i_host Examples.instance1)
    by (intros H; discriminate H).
  destruct (destination_service_selected Examples.env_at_110
              (MemDb.start Examples.migration_store) 1 "host2"
              Examples.instance1 Examples.host2
              [Examples.compute1; Examples.compute2]
              eq_refl (conj eq_refl eq_refl) eq_refl Hdiff eq_refl Hin)
    as (s & rest & Hf & Hhost & _).
  exists s, rest. split; [exact Hf|exact Hhost].
Defined.

(** ** The commit on the reference registry

    What the writes of a successful migration leave in the reference
    registry when no volume is detached under it. *)

Section ReferenceRegistry.

Variables (fl : flags) (rpc : string -> rpc_msg -> exn + string) (clk : nat -> Z).

Local Abbreviation menv := (MemDb.mem_env fl rpc clk).

Lemma find_map_key {A} (key : A -> Z) (f : A -> A) (id : Z) (l : list A) :
  (forall a, key (f a) = key a) ->
  find (fun a => Z.eqb (key a) id) (map f l) =
  option_map f (find (fun a => Z.eqb (key a) id) l).
Proof.
  intros Hkey. induction l as [|a l IH]; [reflexivity|].
  cbn [map find]. rewrite Hkey.
  destruct (Z.eqb (key a) id); [reflexivity|exact IH].
Qed.

Lemma mem_set_state_state_of (st st' : MemDb.store) (id : Z)
    (ps : power_state) (d : string) :
  MemDb.set_state st id ps d = inr st' ->
  MemDb.state_of st' id = Some (ps, d) /\
  MemDb.volumes st' = MemDb.volumes st /\
  MemDb.detached st' = MemDb.detached st.
Proof.
  unfold MemDb.set_state.
  destruct (find (fun i => Z.eqb (i_id i) id) (MemDb.instances st))
    as [i0|] eqn:Hfind; intros H; [|discriminate H].
  injection H as <-. split; [|split; reflexivity].
  unfold MemDb.state_of. cbn [MemDb.instances].
  rewrite (find_map_key i_id
             (fun i => if Z.eqb (i_id i) id then MemDb.with_state ps d i else i)).
  - rewrite Hfind. cbn [option_map].
    apply find_some in Hfind as [_ Hid]. rewrite Hid. reflexivity.
  - intros a. destruct (Z.eqb (i_id a) id); reflexivity.
Qed.

Lemma mem_set_state_succeeds (st : MemDb.store) (id : Z) (i : instance)
    (ps : power_state) (d : string) :
  MemDb.get_instance st id = inr i ->
  exists st', MemDb.set_state st id ps d = inr st'.
Proof.
  unfold MemDb.get_instance, MemDb.set_state.
  destruct (find (fun i0 => Z.eqb (i_id i0) id) (MemDb.instances st));
    intros H; [eexists; reflexivity|discriminate H].
Qed.

(** One update: the volume gets the status, the others keep theirs, and
    nothing else changes. *)
Lemma mem_update_volume (st st' : MemDb.store) (id : Z) :
  MemDb.update_volume st id migrating = inr st' ->
  MemDb.status_of st' id = Some "migrating" /\
  (forall id', MemDb.status_of st id' = Some "migrating" ->
               MemDb.status_of st' id' = Some "migrating") /\
  (forall id', MemDb.status_of st id' <> None ->
               MemDb.status_of st' id' <> None) /\
  MemDb.instances st' = MemDb.instances st /\
  MemDb.detached st' = MemDb.detached st.
Proof.
  unfold MemDb.update_volume.
  destruct (existsb (Z.eqb id) (MemDb.detached st)); [intros H; discriminate H|].
  destruct (find (fun v => Z.eqb (vol_id v) id) (MemDb.volumes st))
    as [v0|] eqn:Hfind; intros H; [|discriminate H].
  injection H as <-.
  assert (Hkey : forall a : volume,
             vol_id (if Z.eqb (vol_id a) id
                     then MemDb.with_values migrating a else a) = vol_id a).
  { intros a. destruct (Z.eqb (vol_id a) id); reflexivity. }
  unfold MemDb.status_of. cbn [MemDb.volumes MemDb.instances MemDb.detached].
  split; [|split; [|split; [|split; reflexivity]]].
  - rewrite (find_map_key vol_id _ id _ Hkey), Hfind. cbn [option_map].
    apply find_some in Hfind as [_ Hid]. rewrite Hid. reflexivity.
  - intros id'. rewrite (find_map_key vol_id _ id' _ Hkey).
    destruct (find (fun a => Z.eqb (vol_id a) id') (MemDb.volumes st)) as [v1|];
      cbn [option_map]; [|intros H; discriminate H].
    intros H. injection H as H.
    destruct (Z.eqb (vol_id v1) id); [reflexivity|]. rewrite H. reflexivity.
  - intros id'. rewrite (find_map_key vol_id _ id' _ Hkey).
    destruct (find (fun a => Z.eqb (vol_id a) id') (MemDb.volumes st));
      cbn [option_map]; [intros _ H; discriminate H|intros H; exact H].
Qed.

Lemma mem_update_volume_succeeds (st : MemDb.store) (id : Z) :
  MemDb.detached st = [] ->
  MemDb.status_of st id <> None ->
  exists st', MemDb.update_volume st id migrating = inr st'.
Proof.
  unfold MemDb.update_volume, MemDb.status_of. intros -> Hfound.
  cbn [existsb].
  destruct (find (fun v => Z.eqb (vol_id v) id) (MemDb.volumes st));
    [eexists; reflexivity|]. exfalso. apply Hfound. reflexivity.
Qed.

(** The loop on volumes that are all in the registry. *)
Lemma mem_update_all (vols : list volume) :
  forall st : MemDb.store,
    MemDb.detached st = [] ->
    (forall v, In v vols -> MemDb.status_of st (vol_id v) <> None) ->
    exists st',
      update_all menv st vols = inr st' /\
      (forall v, In v vols -> MemDb.status_of st' (vol_id v) = Some "migrating") /\
      (forall id, MemDb.status_of st id = Some "migrating" ->
                  MemDb.status_of st' id = Some "migrating") /\
      MemDb.instances st' = MemDb.instances st.
Proof.
  induction vols as [|v vols IH]; intros st Hdet Hfound.
  - exists st. repeat split; auto. intros v [].
  - destruct (mem_update_volume_succeeds st (vol_id v) Hdet
                (Hfound v (or_introl eq_refl))) as [st1 Hupd].
    destruct (mem_update_volume st st1 (vol_id v) Hupd)
      as (Hset & Hkeep & Hstill & Hinst & Hdet1).
    destruct (IH st1) as (st' & Hall & Hvols & Hkeep' & Hinst').
    { rewrite Hdet1. exact Hdet. }
    { intros v' Hin. apply Hstill. apply Hfound. right. exact Hin. }
    exists st'. split; [|split; [|split]].
    + cbn [update_all volume_update MemDb.mem_env].
      rewrite Hupd. exact Hall.
    + intros v' [<-|Hin]; [apply Hkeep'; exact Hset|apply Hvols; exact Hin].
    + intros id Hid. apply Hkeep'. apply Hkeep. exact Hid.
    + rewrite Hinst'. exact Hinst.
Qed.

Lemma mem_listed_volume_found (st : MemDb.store) (id : Z) (v : volume) :
  In v (filter (fun v => Z.eqb (vol_instance_id v) id) (MemDb.volumes st)) ->
  MemDb.status_of st (vol_id v) <> None.
Proof.
  intros Hin. apply filter_In in Hin as [Hin _].
  unfold MemDb.status_of.
  destruct (find (fun v0 => Z.eqb (vol_id v0) (vol_id v)) (MemDb.volumes st))
    eqn:Hfind; [intros H; discriminate H|].
  exfalso. pose proof (find_none _ _ Hfind v Hin) as H.
  cbn beta in H. rewrite Z.eqb_refl in H. discriminate H.
Qed.

(** On the reference registry, with no volume detached under the
    migration: when every check passes, the migration returns the source
    host, leaves the instance PAUSED / "migrating" and every volume
    attached to it "migrating". *)
Theorem mem_live_migration_final_state :
  forall (w : World MemDb.store) (instance_id : Z) (dest : string)
         (i : instance) (dhost ohost : host) (xml : string)
         (placed : list instance),
    checks_pass_with menv w instance_id dest i dhost ohost xml placed ->
    MemDb.detached (w_db w) = [] ->
    fst (schedule_live_migration menv instance_id dest w) = inr (i_host i) /\
    MemDb.state_of (w_db (snd (schedule_live_migration menv instance_id dest w)))
      instance_id = Some (PAUSED, "migrating") /\
    (forall v,
        In v (MemDb.volumes (w_db w)) -> vol_instance_id v = instance_id ->
        MemDb.status_of
          (w_db (snd (schedule_live_migration menv instance_id dest w)))
          (vol_id v) = Some "migrating").
Proof.
  intros w id dest i dhost ohost xml placed Hchecks Hdet.
  pose proof (rh_instance _ _ _ _ _ _ _
                (cp_reaches _ _ _ _ _ _ _ _ (ck_chain _ _ _ _ _ _ _ _ _ Hchecks)))
    as Hi.
  destruct (mem_set_state_succeeds (w_db w) id i PAUSED "migrating" Hi)
    as [st1 Hset].
  destruct (mem_set_state_state_of _ _ _ _ _ Hset) as (Hstate & Hvols & Hdet1).
  destruct (mem_update_all
              (filter (fun v => Z.eqb (vol_instance_id v) id) (MemDb.volumes st1))
              st1) as (st2 & Hall & Hstatus & _ & Hinst).
  { rewrite Hdet1. exact Hdet. }
  { intros v Hin. apply (mem_listed_volume_found st1 id v Hin). }
  rewrite (run_to_commit menv w id dest i dhost ohost xml placed Hchecks).
  cbv zeta.
  replace (instance_set_state menv (w_db w) id PAUSED "migrating")
    with (@inr exn _ st1) by (symmetry; exact Hset).
  erewrite mark_volumes_ok
    by (cbn [set_db w_db]; first [exact Hall|reflexivity]).
  cbn [fst snd w_db]. split; [reflexivity|]. split.
  - unfold MemDb.state_of in *. rewrite Hinst. exact Hstate.
  - intros v Hin Hid. apply Hstatus. apply filter_In. split.
    + rewrite Hvols. exact Hin.
    + apply Z.eqb_eq. exact Hid.
Qed.

End ReferenceRegistry.
